(** * Healthcare bill ledger: the spreadsheet manager

    A shallow embedding of [src/spreadsheet_manager.py] (class
    [SpreadsheetManager]) and the properties of its ledger and reporting
    operations.

    Modelling conventions.
    - The manager object is a record [Manager] holding the in-memory
      frame [df], the file system, the text printed so far and the number
      of clock readings taken.  A method is a function
      [Manager -> result A * Manager]: an exception leaves the manager as
      it was when the exception was raised.
    - Rows of the frame are typed after the data model: text fields are
      strings, [amount] is a float, [date] and [added_on] are timestamps.
    - What the source takes from pandas and from the Python runtime is a
      parameter of the development (section [Ledger]): the float type and
      its addition, [float()], [pd.to_datetime], [pd.read_excel], path
      resolution and the clock.  [pd.to_datetime] gives a timestamp or
      raises; missing values ([NaT], [NaN]) are outside the model, and so
      are failures of the workbook writer. *)

From Stdlib Require Import ZArith String Ascii DecimalString.
From Stdlib Require PrimFloat FloatOps SpecFloat Uint63.
From stdpp Require Import base decidable option list sorting gmap strings.

Local Open Scope Z_scope.
Local Open Scope string_scope.
Local Open Scope list_scope.

(** ** Timestamps *)

(** [str(n)] for an integer. *)
Definition str_int (n : Z) : string := NilZero.string_of_int (Z.to_int n).

Module Timestamp.

(** A [pd.Timestamp], by its calendar fields. *)
Record t := mk {
  year : Z;
  month : Z;
  day : Z;
  hour : Z;
  minute : Z;
  second : Z;
  microsecond : Z
}.

Definition fields (d : t) : list Z :=
  [year d; month d; day d; hour d; minute d; second d; microsecond d].

Fixpoint lex_compare (l1 l2 : list Z) : comparison :=
  match l1, l2 with
  | [], [] => Eq
  | [], _ :: _ => Lt
  | _ :: _, [] => Gt
  | x :: l1', y :: l2' =>
      match Z.compare x y with
      | Eq => lex_compare l1' l2'
      | c => c
      end
  end.

Definition compare (a b : t) : comparison := lex_compare (fields a) (fields b).

Definition leb (a b : t) : bool :=
  match compare a b with Gt => false | _ => true end.

(** [a <= b] on timestamps. *)
Definition le (a b : t) : Prop := leb a b = true.

(** [strftime("%B")]. *)
Definition month_name (d : t) : string :=
  match month d with
  | 1 => "January" | 2 => "February" | 3 => "March" | 4 => "April"
  | 5 => "May" | 6 => "June" | 7 => "July" | 8 => "August"
  | 9 => "September" | 10 => "October" | 11 => "November"
  | 12 => "December"
  | _ => EmptyString
  end.

(** Zero padding to [w] characters, as [%02d] and [%04d] do. *)
Fixpoint pad (w : nat) (s : string) : string :=
  match w with
  | O => s
  | S w' => if (String.length s <=? w')%nat then pad w' ("0" +:+ s) else s
  end.

(** [str(ts)]: [YYYY-MM-DD HH:MM:SS], with the microseconds when they are
    not zero. *)
Definition str (d : t) : string :=
  pad 4 (str_int (year d)) +:+ "-" +:+ pad 2 (str_int (month d)) +:+ "-"
    +:+ pad 2 (str_int (day d)) +:+ " " +:+ pad 2 (str_int (hour d)) +:+ ":"
    +:+ pad 2 (str_int (minute d)) +:+ ":" +:+ pad 2 (str_int (second d))
    +:+ (if (microsecond d =? 0)%Z then EmptyString
         else "." +:+ pad 6 (str_int (microsecond d))).


Lemma lex_compare_antisym l1 : ∀ l2,
  lex_compare l2 l1 = CompOpp (lex_compare l1 l2).
Proof.
  induction l1 as [|x l1 IH]; intros [|y l2]; simpl; try done.
  rewrite (Z.compare_antisym x y).
  destruct (x ?= y)%Z; simpl; auto.
Qed.


Lemma le_iff a b : le a b ↔ compare a b ≠ Gt.
Proof. unfold le, leb. destruct (compare a b); split; congruence. Qed.

#[global] Instance le_dec : RelDecision le.
Proof. intros a b. unfold le. apply _. Defined.



#[global] Instance le_total : Total le.
Proof.
  intros a b. rewrite !le_iff. unfold compare.
  rewrite (lex_compare_antisym (fields a) (fields b)).
  destruct (lex_compare (fields a) (fields b)); simpl; auto.
Qed.

End Timestamp.

(** ** Ordered group keys

    [groupby] orders its groups by key: integers numerically, text by code
    point, pairs lexicographically. *)

Class KeyOrd (K : Type) := {
  kcmp : K → K → comparison;
  kcmp_eq : ∀ a b, kcmp a b = Eq ↔ a = b;
  kcmp_antisym : ∀ a b, kcmp b a = CompOpp (kcmp a b);
  kcmp_trans : ∀ a b c, kcmp a b = Lt → kcmp b c = Lt → kcmp a c = Lt
}.

Definition klt {K} `{KeyOrd K} (a b : K) : Prop := kcmp a b = Lt.

Lemma ascii_compare_trans a b c :
  Ascii.compare a b = Lt → Ascii.compare b c = Lt → Ascii.compare a c = Lt.
Proof.
  unfold Ascii.compare. rewrite !N.compare_lt_iff. apply N.lt_trans.
Qed.

Lemma ascii_compare_refl a : Ascii.compare a a = Eq.
Proof. unfold Ascii.compare. apply N.compare_refl. Qed.

Lemma string_compare_refl s : String.compare s s = Eq.
Proof. induction s as [|a s IH]; simpl; [done|]. by rewrite ascii_compare_refl. Qed.

Lemma string_compare_trans s1 : ∀ s2 s3,
  String.compare s1 s2 = Lt → String.compare s2 s3 = Lt →
  String.compare s1 s3 = Lt.
Proof.
  induction s1 as [|a s1 IH]; intros [|b s2] [|c s3]; simpl; try done.
  destruct (Ascii.compare a b) eqn:Hab; [| |done].
  - apply Ascii.compare_eq_iff in Hab as ->.
    destruct (Ascii.compare b c); eauto.
  - destruct (Ascii.compare b c) eqn:Hbc; [| |done]; intros _ _.
    + apply Ascii.compare_eq_iff in Hbc as <-. by rewrite Hab.
    + by rewrite (ascii_compare_trans _ _ _ Hab Hbc).
Qed.

#[global, refine] Instance Z_KeyOrd : KeyOrd Z := {| kcmp := Z.compare |}.
Proof.
  - intros a b. apply Z.compare_eq_iff.
  - intros a b. apply Z.compare_antisym.
  - intros a b c. rewrite !Z.compare_lt_iff. apply Z.lt_trans.
Defined.

#[global, refine] Instance string_KeyOrd : KeyOrd string :=
  {| kcmp := String.compare |}.
Proof.
  - intros a b. split; [apply String.compare_eq_iff|].
    intros ->. apply string_compare_refl.
  - intros a b. apply String.compare_antisym.
  - apply string_compare_trans.
Defined.

(** Lexicographic order on pairs of keys. *)
Definition pair_cmp {A B} `{KeyOrd A} `{KeyOrd B} (x y : A * B) : comparison :=
  match kcmp (fst x) (fst y) with
  | Eq => kcmp (snd x) (snd y)
  | c => c
  end.

Lemma kcmp_refl {K} `{KeyOrd K} (a : K) : kcmp a a = Eq.
Proof. by apply kcmp_eq. Qed.

Lemma kcmp_gt_lt {K} `{KeyOrd K} (a b : K) : kcmp a b = Gt ↔ kcmp b a = Lt.
Proof. rewrite (kcmp_antisym a b). destruct (kcmp a b); simpl; split; congruence. Qed.

#[global, refine] Instance pair_KeyOrd {A B} `{KeyOrd A} `{KeyOrd B} :
  KeyOrd (A * B) := {| kcmp := pair_cmp |}.
Proof.
  - intros [a1 b1] [a2 b2]. unfold pair_cmp. simpl.
    destruct (kcmp a1 a2) eqn:Ha.
    + apply kcmp_eq in Ha as ->. rewrite kcmp_eq. split; congruence.
    + split; [done|]. intros [= -> _]. by rewrite kcmp_refl in Ha.
    + split; [done|]. intros [= -> _]. by rewrite kcmp_refl in Ha.
  - intros [a1 b1] [a2 b2]. unfold pair_cmp. simpl.
    rewrite (kcmp_antisym a1 a2). destruct (kcmp a1 a2); simpl; auto.
    apply kcmp_antisym.
  - intros [a1 b1] [a2 b2] [a3 b3]. unfold pair_cmp. simpl.
    destruct (kcmp a1 a2) eqn:H12; [| |done].
    + apply kcmp_eq in H12 as ->. destruct (kcmp a2 a3); [|done..].
      apply kcmp_trans.
    + destruct (kcmp a2 a3) eqn:H23; [| |done]; intros _ _.
      * apply kcmp_eq in H23 as <-. by rewrite H12.
      * by rewrite (kcmp_trans _ _ _ H12 H23).
Defined.

(** ** Grouping

    [df.groupby(key)]: the rows are scanned in order and each one joins the
    group of its key; the groups come out ordered by key, and inside a group
    the rows keep the order of the frame. *)

Section GroupBy.
Context {K R : Type} `{KeyOrd K}.

Fixpoint group_insert (k : K) (r : R) (gs : list (K * list R))
  : list (K * list R) :=
  match gs with
  | [] => [(k, [r])]
  | (k', g) :: gs' =>
      match kcmp k k' with
      | Eq => (k', g ++ [r]) :: gs'
      | Lt => (k, [r]) :: gs
      | Gt => (k', g) :: group_insert k r gs'
      end
  end.

Definition groupby (key : R → K) (rows : list R) : list (K * list R) :=
  foldl (λ gs r, group_insert (key r) r gs) [] rows.

(** The group stored under a key, if any. *)
Fixpoint group_of (k : K) (gs : list (K * list R)) : option (list R) :=
  match gs with
  | [] => None
  | (k', g) :: gs' =>
      match kcmp k k' with
      | Eq => Some g
      | _ => group_of k gs'
      end
  end.

(** The rows of a frame that carry a given key. *)
Definition rows_with (key : R → K) (k : K) (rows : list R) : list R :=
  List.filter (λ r, match kcmp (key r) k with Eq => true | _ => false end) rows.

Definition keys_sorted (gs : list (K * list R)) : Prop :=
  StronglySorted klt (gs.*1).

Lemma group_of_above k gs :
  Forall (klt k) (gs.*1) → group_of k gs = None.
Proof.
  induction gs as [|[k' g] gs IH]; simpl; [done|].
  intros Hall. apply Forall_cons in Hall as [Hlt Hall].
  unfold klt in Hlt. rewrite Hlt. auto.
Qed.

Lemma group_insert_keys k r gs k0 :
  k0 ∈ (group_insert k r gs).*1 → k0 = k ∨ k0 ∈ gs.*1.
Proof.
  induction gs as [|[k' g] gs IH]; csimpl.
  - intros ->%list_elem_of_singleton. by left.
  - destruct (kcmp k k') eqn:Hc; csimpl; rewrite !elem_of_cons.
    + tauto.
    + tauto.
    + intros [->|Hin]; [tauto|]. destruct (IH Hin); tauto.
Qed.

Lemma group_insert_sorted k r gs :
  keys_sorted gs → keys_sorted (group_insert k r gs).
Proof.
  unfold keys_sorted.
  induction gs as [|[k' g] gs IH]; simpl; intros Hs.
  - repeat constructor.
  - apply StronglySorted_inv in Hs as [Hs Hall].
    destruct (kcmp k k') eqn:Hc; simpl.
    + by constructor.
    + constructor; [by constructor|].
      constructor; [done|].
      eapply Forall_impl; [exact Hall|].
      intros k0 Hk0. by eapply kcmp_trans.
    + constructor; [auto|].
      apply Forall_forall. intros k0 Hin.
      apply group_insert_keys in Hin as [->|Hin].
      * by apply kcmp_gt_lt.
      * by eapply Forall_forall in Hall.
Qed.

Lemma group_of_insert_eq k r gs :
  keys_sorted gs →
  group_of k (group_insert k r gs) = Some (default [] (group_of k gs) ++ [r]).
Proof.
  unfold keys_sorted.
  induction gs as [|[k' g] gs IH]; simpl; intros Hs.
  - by rewrite kcmp_refl.
  - apply StronglySorted_inv in Hs as [Hs Hall].
    destruct (kcmp k k') eqn:Hc; simpl.
    + by rewrite Hc.
    + rewrite kcmp_refl. rewrite group_of_above; [done|].
      eapply Forall_impl; [exact Hall|].
      intros k0 Hk0. by eapply kcmp_trans.
    + rewrite Hc. auto.
Qed.

Lemma group_of_insert_ne k k0 r gs :
  k0 ≠ k → group_of k0 (group_insert k r gs) = group_of k0 gs.
Proof.
  intros Hne.
  induction gs as [|[k' g] gs IH]; simpl.
  - destruct (kcmp k0 k) eqn:Hc; [|done..]. by apply kcmp_eq in Hc.
  - destruct (kcmp k k') eqn:Hc; simpl.
    + apply kcmp_eq in Hc as ->.
      destruct (kcmp k0 k') eqn:Hc'; [|done..]. by apply kcmp_eq in Hc'.
    + destruct (kcmp k0 k) eqn:Hc'; [|done..]. by apply kcmp_eq in Hc'.
    + by rewrite IH.
Qed.

Lemma groupby_snoc key rows r :
  groupby key (rows ++ [r]) = group_insert (key r) r (groupby key rows).
Proof. unfold groupby. by rewrite foldl_app. Qed.

Lemma groupby_sorted key rows : keys_sorted (groupby key rows).
Proof.
  induction rows as [|r rows IH] using rev_ind.
  - constructor.
  - rewrite groupby_snoc. by apply group_insert_sorted.
Qed.

Lemma rows_with_snoc key k rows r :
  rows_with key k (rows ++ [r])
  = rows_with key k rows ++ (match kcmp (key r) k with Eq => [r] | _ => [] end).
Proof.
  unfold rows_with. rewrite List.filter_app. f_equal. simpl.
  by destruct (kcmp (key r) k).
Qed.

(** The group of a key holds exactly the rows with that key, in the order of
    the frame; a key no row carries has no group. *)
Lemma group_of_groupby key rows k :
  group_of k (groupby key rows)
  = match rows_with key k rows with [] => None | g => Some g end.
Proof.
  induction rows as [|r rows IH] using rev_ind; [done|].
  rewrite groupby_snoc, rows_with_snoc.
  destruct (kcmp (key r) k) eqn:Hc.
  - apply kcmp_eq in Hc. subst k.
    rewrite group_of_insert_eq by apply groupby_sorted.
    rewrite IH. destruct (rows_with key (key r) rows) as [|r0 l]; simpl; done.
  - rewrite group_of_insert_ne, IH, app_nil_r; [done|].
    intros Heq. subst k. by rewrite kcmp_refl in Hc.
  - rewrite group_of_insert_ne, IH, app_nil_r; [done|].
    intros Heq. subst k. by rewrite kcmp_refl in Hc.
Qed.

Lemma elem_of_group_of k g gs :
  keys_sorted gs → (k, g) ∈ gs ↔ group_of k gs = Some g.
Proof.
  unfold keys_sorted.
  induction gs as [|[k' g'] gs IH]; csimpl; intros Hs.
  - split; [by intros ?%elem_of_nil|done].
  - apply StronglySorted_inv in Hs as [Hs Hall].
    rewrite elem_of_cons, (IH Hs). clear IH.
    destruct (kcmp k k') eqn:Hc.
    + apply kcmp_eq in Hc as ->. split.
      * intros [Heq|Hg]; [by inversion Heq|].
        rewrite group_of_above in Hg; done.
      * intros [= ->]. by left.
    + split; [|by right]. intros [Heq|?]; [|done].
      inversion Heq; subst. by rewrite kcmp_refl in Hc.
    + split; [|by right]. intros [Heq|?]; [|done].
      inversion Heq; subst. by rewrite kcmp_refl in Hc.
Qed.

Lemma keys_sorted_NoDup gs : keys_sorted gs → NoDup (gs.*1).
Proof.
  unfold keys_sorted. induction 1 as [|k ks Hs IH Hall]; constructor; [|done].
  intros Hin. eapply Forall_forall in Hall; [|exact Hin].
  unfold klt in Hall. by rewrite kcmp_refl in Hall.
Qed.

(** Membership in the result of [groupby], stated on the frame. *)
Lemma elem_of_groupby key rows k g :
  (k, g) ∈ groupby key rows ↔ g = rows_with key k rows ∧ g ≠ [].
Proof.
  rewrite elem_of_group_of by apply groupby_sorted.
  rewrite group_of_groupby.
  destruct (rows_with key k rows); split; try done.
  - by intros [-> ?].
  - by intros [= <-].
  - by intros [-> _].
Qed.

End GroupBy.

(** ** Exceptions and results *)

Inductive exn :=
| ValueError (msg : string)
| TypeError (msg : string)
| OverflowError (msg : string)
| OSError (msg : string).

(** [str(e)]. *)
Definition exn_str (e : exn) : string :=
  match e with
  | ValueError m | TypeError m | OverflowError m | OSError m => m
  end.

Inductive result (A : Type) :=
| Ok (a : A)
| Raise (e : exn).
Arguments Ok {A} a.
Arguments Raise {A} e.

(** ** The ledger *)

Section Ledger.
Set Default Proof Using "Type".

(** Python's [float], with [0.0], [+] and [<=]. *)
Context {float : Type} (fzero : float) (fadd : float → float → float).
Context (fle : relation float) `{!RelDecision fle}.
(** [float(n)] for an integer (no result: [OverflowError]) and [float(s)]
    for text (no result: [ValueError]). *)
Context (float_of_int : Z → option float) (float_of_str : string → option float).
(** [Series.mean()] and the format [:.2f]. *)
Context (fmean : list float → float) (format_2f : float → string).
(** [pd.to_datetime] on text; no result when it raises. *)
Context (to_datetime : string → option Timestamp.t).
(** The readings of the clock, in the order they are taken. *)
Context (clock : nat → Timestamp.t).
(** [Path(p).expanduser().resolve()]. *)
Context (resolve : string → string).

(** The values an [amount] entry of the input dictionary can hold. *)
Inductive PyVal :=
| PyNone
| PyBool (b : bool)
| PyInt (n : Z)
| PyFloat (x : float)
| PyStr (s : string).

(** The built-in [float(v)]. *)
Definition py_float (v : PyVal) : result float :=
  match v with
  | PyFloat x => Ok x
  | PyInt n =>
      match float_of_int n with
      | Some x => Ok x
      | None => Raise (OverflowError "int too large to convert to float")
      end
  | PyBool b =>
      match float_of_int (if b then 1 else 0) with
      | Some x => Ok x
      | None => Raise (OverflowError "int too large to convert to float")
      end
  | PyStr s =>
      match float_of_str s with
      | Some x => Ok x
      | None => Raise (ValueError ("could not convert string to float: '" +:+ s +:+ "'"))
      end
  | PyNone =>
      Raise (TypeError "float() argument must be a string or a real number, not 'NoneType'")
  end.

(** The dictionary [add_record] receives: each key may be absent. *)
Record RecordDict := {
  rd_date : option string;
  rd_provider : option string;
  rd_amount : option PyVal;
  rd_category : option string;
  rd_description : option string;
  rd_pdf_path : option string
}.

(** One row of the frame. *)
Record BillRecord := {
  date : Timestamp.t;
  provider : string;
  amount : float;
  category : string;
  description : string;
  pdf_path : string;
  year : Z;
  month : Z;
  added_on : Timestamp.t
}.

Record DataFrame := {
  columns : list string;
  rows : list BillRecord
}.

(** [df.empty]: a frame of bill rows has its columns, so it is empty when it
    has no row. *)
Definition df_empty (d : DataFrame) : bool :=
  match rows d with [] => true | _ => false end.

(** What is written to a sheet. *)
Inductive Cell :=
| CTimestamp (d : Timestamp.t)
| CStr (s : string)
| CFloat (x : float)
| CInt (n : Z)
| CEmpty.

Record Table := {
  tcolumns : list string;
  trows : list (list Cell)
}.

(** A workbook: its sheets, by name, in the order they were written. *)
Definition Workbook := list (string * Table).

Definition sheet (name : string) (wb : Workbook) : option Table :=
  snd <$> List.find (λ p, String.eqb (fst p) name) wb.

Inductive FileData :=
| Xlsx (wb : Workbook)
| Blob (bytes : string).

(** [pd.read_excel(path, sheet_name=...)] on the content of a file, and the
    coercion [df["date"] = pd.to_datetime(df["date"])]. *)
Context (read_excel : FileData → string → result DataFrame).
Context (to_datetime_column : DataFrame → result DataFrame).

Record Manager := {
  workbook_path : string;
  df : DataFrame;
  fs : gmap string FileData;
  stdout : list string;
  ticks : nat
}.

Definition set_df (d : DataFrame) (m : Manager) : Manager :=
  {| workbook_path := workbook_path m; df := d; fs := fs m;
     stdout := stdout m; ticks := ticks m |}.

Definition write_file (path : string) (data : FileData) (m : Manager) : Manager :=
  {| workbook_path := workbook_path m; df := df m;
     fs := <[path := data]> (fs m);
     stdout := stdout m; ticks := ticks m |}.

(** ** Methods as state transformers *)

Definition M (A : Type) : Type := Manager → result A * Manager.

Definition ret {A} (a : A) : M A := λ m, (Ok a, m).

Definition bind {A B} (c : M A) (k : A → M B) : M B :=
  λ m, match c m with
       | (Ok a, m') => k a m'
       | (Raise e, m') => (Raise e, m')
       end.

Definition raise {A} (e : exn) : M A := λ m, (Raise e, m).

Definition lift {A} (r : result A) : M A := λ m, (r, m).

Definition get : M Manager := λ m, (Ok m, m).

Definition modify (f : Manager → Manager) : M unit := λ m, (Ok tt, f m).

Notation "x <- c ;; k" := (bind c (λ x, k))
  (at level 100, c at next level, right associativity).
Notation "c ;;; k" := (bind c (λ _, k))
  (at level 100, right associativity).

(** [print(s)]. *)
Definition print (s : string) : M unit :=
  modify (λ m, {| workbook_path := workbook_path m; df := df m; fs := fs m;
                  stdout := stdout m ++ [s]; ticks := ticks m |}).

(** [pd.Timestamp.now()]. *)
Definition now : M Timestamp.t :=
  λ m, (Ok (clock (ticks m)),
        {| workbook_path := workbook_path m; df := df m; fs := fs m;
           stdout := stdout m; ticks := S (ticks m) |}).

(** ** Loading *)

Definition canonical_columns : list string :=
  ["date"; "provider"; "amount"; "category"; "description"; "pdf_path";
   "year"; "month"; "added_on"].

Definition _create_empty_dataframe : DataFrame :=
  {| columns := canonical_columns; rows := [] |}.

(** The body of the [try] in [_load_or_create_dataframe]. *)
Definition read_bills (data : FileData) : result DataFrame :=
  match read_excel data "Bills" with
  | Ok d =>
      if bool_decide ("date" ∈ columns d) then to_datetime_column d else Ok d
  | Raise e => Raise e
  end.

(** [_load_or_create_dataframe], on the path, the file system and the text
    printed so far; it gives the frame and the text printed. *)
Definition _load_or_create_dataframe (path : string)
    (files : gmap string FileData) (out : list string)
  : DataFrame * list string :=
  match files !! path with
  | Some data =>
      match read_bills data with
      | Ok d => (d, out)
      | Raise e =>
          (_create_empty_dataframe,
           out ++ ["Warning: Could not load existing file: " +:+ exn_str e])
      end
  | None => (_create_empty_dataframe, out)
  end.

(** [SpreadsheetManager(workbook_path)]. *)
Definition init (path : string) (files : gmap string FileData)
    (out : list string) (t : nat) : Manager :=
  let p := resolve path in
  let '(d, out') := _load_or_create_dataframe p files out in
  {| workbook_path := p; df := d; fs := files; stdout := out'; ticks := t |}.

(** ** Adding a record *)

(** [pd.concat([df, pd.DataFrame([row])], ignore_index=True)]: the row goes
    last, and the columns of the row the frame lacks are added. *)
Definition concat_row (d : DataFrame) (r : BillRecord) : DataFrame :=
  {| columns := columns d ++ list_difference canonical_columns (columns d);
     rows := rows d ++ [r] |}.

Definition add_record (record : RecordDict) : M unit :=
  let date_str := default EmptyString (rd_date record) in
  d <- match to_datetime date_str with
       | Some d => ret d
       | None => now
       end;;
  a <- lift (py_float (default (PyFloat fzero) (rd_amount record)));;
  stamp <- now;;
  let new_row :=
    {| date := d;
       provider := default EmptyString (rd_provider record);
       amount := a;
       category := default "medical" (rd_category record);
       description := default EmptyString (rd_description record);
       pdf_path := default EmptyString (rd_pdf_path record);
       year := Timestamp.year d;
       month := Timestamp.month d;
       added_on := stamp |} in
  modify (λ m, set_df (concat_row (df m) new_row) m).

(** ** Aggregation *)

(** [Series.sum()] on a column of floats. *)
Definition fsum (xs : list float) : float := foldl fadd fzero xs.

(** [Series.min()] and [Series.max()] on a column of timestamps; a column
    with no entry has none. *)
Definition ts_min (ds : list Timestamp.t) : option Timestamp.t :=
  match ds with
  | [] => None
  | d0 :: ds' => Some (foldl (λ m d, if Timestamp.leb m d then m else d) d0 ds')
  end.

Definition ts_max (ds : list Timestamp.t) : option Timestamp.t :=
  match ds with
  | [] => None
  | d0 :: ds' => Some (foldl (λ m d, if Timestamp.leb d m then m else d) d0 ds')
  end.

(** [str(...)] of such a minimum or maximum. *)
Definition ts_opt_str (o : option Timestamp.t) : string :=
  match o with
  | Some d => Timestamp.str d
  | None => "NaT"
  end.

(** [df.groupby(key)["amount"].sum()]: one entry per group, in key order. *)
Definition group_sums {K} `{KeyOrd K} (key : BillRecord → K)
    (rs : list BillRecord) : list (K * float) :=
  (λ kg, (fst kg, fsum (amount <$> snd kg))) <$> groupby key rs.

(** [df.groupby(key).agg({"amount": "sum", col: "count"})]: per group the
    summed amount and the number of rows. *)
Definition group_agg {K} `{KeyOrd K} (key : BillRecord → K)
    (rs : list BillRecord) : list (K * (float * nat)) :=
  (λ kg, (fst kg, (fsum (amount <$> snd kg), length (snd kg))))
    <$> groupby key rs.

(** ** Summary *)

(** The dictionary [get_summary] returns: one shape when the frame is empty,
    another one otherwise. *)
Inductive Summary :=
| NoRecords (total_records : nat) (total_amount : float) (message : string)
| Stats (total_records : nat) (total_amount : float)
    (earliest latest : string)
    (by_category : gmap string float)
    (by_year : gmap Z float)
    (by_provider : gmap string float).

Definition get_summary (d : DataFrame) : Summary :=
  if df_empty d then NoRecords 0 fzero "No records found"
  else
    Stats (length (rows d))
      (fsum (amount <$> rows d))
      (ts_opt_str (ts_min (date <$> rows d)))
      (ts_opt_str (ts_max (date <$> rows d)))
      (list_to_map (group_sums category (rows d)))
      (list_to_map (group_sums year (rows d)))
      (list_to_map (group_sums provider (rows d))).

(** ** Saving *)

(** [sort_values("date")] and [sort_values("date", ascending=False)]. *)
Definition date_le (a b : BillRecord) : Prop := Timestamp.le (date a) (date b).
Definition date_ge (a b : BillRecord) : Prop := Timestamp.le (date b) (date a).

#[local] Instance date_le_dec : RelDecision date_le.
Proof. intros a b. unfold date_le. apply _. Defined.
#[local] Instance date_ge_dec : RelDecision date_ge.
Proof. intros a b. unfold date_ge. apply _. Defined.

Definition sort_by_date (rs : list BillRecord) : list BillRecord :=
  merge_sort date_le rs.
Definition sort_by_date_desc (rs : list BillRecord) : list BillRecord :=
  merge_sort date_ge rs.

(** The cell of a row under a column name. *)
Definition cell_of (r : BillRecord) (col : string) : Cell :=
  if String.eqb col "date" then CTimestamp (date r)
  else if String.eqb col "provider" then CStr (provider r)
  else if String.eqb col "amount" then CFloat (amount r)
  else if String.eqb col "category" then CStr (category r)
  else if String.eqb col "description" then CStr (description r)
  else if String.eqb col "pdf_path" then CStr (pdf_path r)
  else if String.eqb col "year" then CInt (year r)
  else if String.eqb col "month" then CInt (month r)
  else if String.eqb col "added_on" then CTimestamp (added_on r)
  else CEmpty.

(** [frame[cols].to_excel(writer, sheet_name=..., index=False)]. *)
Definition to_table (cols : list string) (rs : list BillRecord) : Table :=
  {| tcolumns := cols; trows := (λ r, cell_of r <$> cols) <$> rs |}.

(** A grouped summary as a sheet: the key, the summed amount and the count
    renamed to [num_bills]. *)
Definition agg_table {K} (key_name : string) (key_cell : K → Cell)
    (groups : list (K * (float * nat))) : Table :=
  {| tcolumns := [key_name; "amount"; "num_bills"];
     trows := (λ g, [key_cell (fst g); CFloat (fst (snd g));
                      CInt (Z.of_nat (snd (snd g)))]) <$> groups |}.

(** [sort_values("amount", ascending=False)] on a grouped summary. *)
Definition amount_ge {K} (a b : K * (float * nat)) : Prop :=
  fle (fst (snd b)) (fst (snd a)).

#[local] Instance amount_ge_dec {K} : RelDecision (@amount_ge K).
Proof using RelDecision0. intros a b. unfold amount_ge. apply _. Defined.

Definition provider_summary (rs : list BillRecord)
  : list (string * (float * nat)) :=
  merge_sort amount_ge (group_agg provider rs).

Definition _write_summary_sheets (d : DataFrame) : Workbook :=
  if df_empty d then []
  else
    [("By Year", agg_table "year" CInt (group_agg year (rows d)));
     ("By Category", agg_table "category" CStr (group_agg category (rows d)));
     ("By Provider", agg_table "provider" CStr (provider_summary (rows d)))].

(** The workbook [save] writes: the sheet [Bills], then the summaries.  The
    formatting of the header and of the column widths changes no value and
    is left out. *)
Definition bills_workbook (d : DataFrame) : Workbook :=
  ("Bills", to_table (columns d) (rows d)) :: _write_summary_sheets d.

Definition save : M unit :=
  m <- get;;
  if df_empty (df m) then print "Warning: No data to save"
  else
    let sorted :=
      {| columns := columns (df m); rows := sort_by_date_desc (rows (df m)) |} in
    modify (set_df sorted);;;
    modify (write_file (workbook_path m) (Xlsx (bills_workbook sorted)));;;
    print ("Saved to " +:+ workbook_path m).

(** ** Exports *)

(** [df[df["year"] == year]]. *)
Definition filter_year (y : Z) (rs : list BillRecord) : list BillRecord :=
  List.filter (λ r, (year r =? y)%Z) rs.

(** The grouped monthly sums of the tax export: grouped by month and month
    name, then [sort_values("month")]. *)
Definition month_le (a b : (Z * string) * float) : Prop :=
  (fst (fst a) ≤ fst (fst b))%Z.

#[local] Instance month_le_dec : RelDecision month_le.
Proof. intros a b. unfold month_le. apply _. Defined.

Definition monthly_summary (rs : list BillRecord)
  : list ((Z * string) * float) :=
  merge_sort month_le
    (group_sums (λ r, (month r, Timestamp.month_name (date r))) rs).

(** [monthly_summary[["month_name", "amount"]].to_excel(..., index=False)]. *)
Definition monthly_table (ms : list ((Z * string) * float)) : Table :=
  {| tcolumns := ["month_name"; "amount"];
     trows := (λ g, [CStr (snd (fst g)); CFloat (snd g)]) <$> ms |}.

Definition category_table (cs : list (string * float)) : Table :=
  {| tcolumns := ["Category"; "Total Amount"];
     trows := (λ g, [CStr (fst g); CFloat (snd g)]) <$> cs |}.

Definition summary_table (y : Z) (rs : list BillRecord) : Table :=
  {| tcolumns := ["Metric"; "Value"];
     trows :=
       [[CStr "Total Amount"; CStr ("$" +:+ format_2f (fsum (amount <$> rs)))];
        [CStr "Number of Bills"; CInt (Z.of_nat (length rs))];
        [CStr "Average Bill Amount"; CStr ("$" +:+ format_2f (fmean (amount <$> rs)))];
        [CStr "Tax Year"; CInt y]] |}.

Definition tax_workbook (y : Z) (year_df : list BillRecord) : Workbook :=
  [("Details",
    to_table ["date"; "provider"; "category"; "amount"; "description"] year_df);
   ("Category Summary", category_table (group_sums category year_df));
   ("Monthly Summary", monthly_table (monthly_summary year_df));
   ("Summary", summary_table y year_df)].

Definition export_for_taxes (y : Z) (output_path : option string) : M string :=
  let output_path :=
    resolve (default ("tax_export_" +:+ str_int y +:+ ".xlsx") output_path) in
  m <- get;;
  let year_df := filter_year y (rows (df m)) in
  match year_df with
  | [] => raise (ValueError ("No records found for year " +:+ str_int y))
  | _ =>
      let year_df := sort_by_date year_df in
      modify (write_file output_path (Xlsx (tax_workbook y year_df)));;;
      print ("Tax export for " +:+ str_int y +:+ " saved to " +:+ output_path);;;
      ret output_path
  end.

Definition hsa_eligible_categories : list string :=
  ["medical"; "dental"; "vision"; "prescription"; "pharmacy"].

(** [df[df["category"].isin(hsa_eligible_categories)]]. *)
Definition filter_hsa (rs : list BillRecord) : list BillRecord :=
  List.filter (λ r, bool_decide (category r ∈ hsa_eligible_categories)) rs.

Definition yearly_table (ys : list (Z * float)) : Table :=
  {| tcolumns := ["Year"; "Total HSA-Eligible Amount"];
     trows := (λ g, [CInt (fst g); CFloat (snd g)]) <$> ys |}.

Definition hsa_workbook (hsa_df : list BillRecord) : Workbook :=
  [("HSA Expenses",
    to_table ["date"; "provider"; "category"; "amount"; "description"; "pdf_path"]
      hsa_df);
   ("Yearly Totals", yearly_table (group_sums year hsa_df))].

Definition export_hsa_reconciliation (output_path : option string) : M string :=
  let output_path := resolve (default "hsa_reconciliation.xlsx" output_path) in
  m <- get;;
  let hsa_df := filter_hsa (rows (df m)) in
  match hsa_df with
  | [] => raise (ValueError "No HSA-eligible records found")
  | _ =>
      let hsa_df := sort_by_date hsa_df in
      modify (write_file output_path (Xlsx (hsa_workbook hsa_df)));;;
      print ("HSA reconciliation saved to " +:+ output_path);;;
      ret output_path
  end.

(** ** The ledger invariant *)



(** The row [add_record] builds from the input, the resolved date, the
    coerced amount and the creation stamp. *)
Definition row_of (record : RecordDict) (d : Timestamp.t) (a : float)
    (stamp : Timestamp.t) : BillRecord :=
  {| date := d;
     provider := default EmptyString (rd_provider record);
     amount := a;
     category := default "medical" (rd_category record);
     description := default EmptyString (rd_description record);
     pdf_path := default EmptyString (rd_pdf_path record);
     year := Timestamp.year d;
     month := Timestamp.month d;
     added_on := stamp |}.

(** ** Properties of [add_record] *)

Ltac run := unfold bind, ret, lift, raise, get, modify, now, print; simpl.

(** What [add_record] does, by the outcome of the date parse and of the
    coercion of the amount. *)
Lemma add_record_unfold record m :
  add_record record m =
  let d := default (clock (ticks m))
             (to_datetime (default EmptyString (rd_date record))) in
  let t1 := match to_datetime (default EmptyString (rd_date record)) with
            | Some _ => ticks m
            | None => S (ticks m)
            end in
  match py_float (default (PyFloat fzero) (rd_amount record)) with
  | Ok a =>
      (Ok tt,
       {| workbook_path := workbook_path m;
          df := concat_row (df m) (row_of record d a (clock t1));
          fs := fs m; stdout := stdout m; ticks := S t1 |})
  | Raise e =>
      (Raise e,
       {| workbook_path := workbook_path m; df := df m; fs := fs m;
          stdout := stdout m; ticks := t1 |})
  end.
Proof.
  unfold add_record. run.
  destruct (to_datetime _) as [d|]; simpl;
    destruct (py_float _) as [a|e]; simpl; try reflexivity.
  by destruct m.
Qed.


Lemma sort_by_date_perm rs : sort_by_date rs ≡ₚ rs.
Proof. apply merge_sort_Permutation. Qed.

#[local] Instance date_le_total : Total date_le.
Proof. intros a b. apply Timestamp.le_total. Qed.

#[local] Instance date_ge_total : Total date_ge.
Proof. intros a b. apply Timestamp.le_total. Qed.

Lemma save_unfold m :
  save m =
  if df_empty (df m) then
    (Ok tt,
     {| workbook_path := workbook_path m; df := df m; fs := fs m;
        stdout := stdout m ++ ["Warning: No data to save"]; ticks := ticks m |})
  else
    let sorted :=
      {| columns := columns (df m); rows := sort_by_date_desc (rows (df m)) |} in
    (Ok tt,
     {| workbook_path := workbook_path m; df := sorted;
        fs := <[workbook_path m := Xlsx (bills_workbook sorted)]> (fs m);
        stdout := stdout m ++ ["Saved to " +:+ workbook_path m];
        ticks := ticks m |}).
Proof. unfold save. run. by destruct (df_empty (df m)). Qed.

Lemma export_for_taxes_df y p m : df (export_for_taxes y p m).2 = df m.
Proof.
  unfold export_for_taxes. run. by destruct (filter_year y (rows (df m))).
Qed.

Lemma export_hsa_reconciliation_df p m :
  df (export_hsa_reconciliation p m).2 = df m.
Proof.
  unfold export_hsa_reconciliation. run. by destruct (filter_hsa (rows (df m))).
Qed.

(** C1, as amended: a record whose date text does not parse and whose
    amount coerces to a float is appended to the frame; its date is the
    clock reading taken by the call, its year and month are those of that
    reading, and nothing but the frame and the clock changes. *)
Theorem add_record_unparseable_date record m a :
  to_datetime (default EmptyString (rd_date record)) = None →
  py_float (default (PyFloat fzero) (rd_amount record)) = Ok a →
  ∃ r m',
    add_record record m = (Ok tt, m')
    ∧ rows (df m') = rows (df m) ++ [r]
    ∧ date r = clock (ticks m)
    ∧ year r = Timestamp.year (clock (ticks m))
    ∧ month r = Timestamp.month (clock (ticks m))
    ∧ r = row_of record (clock (ticks m)) a (clock (S (ticks m)))
    ∧ fs m' = fs m ∧ stdout m' = stdout m.
Proof.
  intros Hdate Ha. rewrite add_record_unfold, Hdate, Ha. simpl.
  eexists _, _. repeat split; reflexivity.
Qed.


(** C10: when the amount does not coerce to a float, [add_record] raises
    the error of the coercion and the frame is the one before the call;
    nothing is written and nothing is printed. *)
Theorem add_record_bad_amount record m e :
  py_float (default (PyFloat fzero) (rd_amount record)) = Raise e →
  ∃ m', add_record record m = (Raise e, m')
        ∧ df m' = df m ∧ fs m' = fs m ∧ stdout m' = stdout m.
Proof.
  intros Ha. rewrite add_record_unfold, Ha. simpl.
  eexists. repeat split; reflexivity.
Qed.

(** ** Properties of [save] and of loading *)

(** C7: on an empty frame [save] only prints its warning: the file system,
    and so the backing file whether it exists or not, and the frame are
    unchanged. *)
Theorem save_empty_noop m :
  df_empty (df m) = true →
  ∃ m', save m = (Ok tt, m')
        ∧ fs m' = fs m
        ∧ df m' = df m
        ∧ stdout m' = stdout m ++ ["Warning: No data to save"].
Proof.
  intros He. rewrite save_unfold, He. eexists. repeat split; reflexivity.
Qed.

(** C8: loading always gives a frame.  With no backing file it is the empty
    frame; with a backing file that cannot be read it is the empty frame
    and a warning is printed; the empty frame has the nine canonical
    columns and no row. *)
Theorem load_falls_back_to_empty path files out :
  (files !! path = None →
     _load_or_create_dataframe path files out = (_create_empty_dataframe, out))
  ∧ (∀ data e,
       files !! path = Some data → read_bills data = Raise e →
       _load_or_create_dataframe path files out
       = (_create_empty_dataframe,
          out ++ ["Warning: Could not load existing file: " +:+ exn_str e]))
  ∧ columns _create_empty_dataframe
    = ["date"; "provider"; "amount"; "category"; "description"; "pdf_path";
       "year"; "month"; "added_on"]
  ∧ rows _create_empty_dataframe = []
  ∧ df_empty _create_empty_dataframe = true.
Proof.
  unfold _load_or_create_dataframe. repeat split.
  - by intros ->.
  - by intros data e -> ->.
Qed.

(** ** Properties of the aggregations *)




(** The rows with a key are the rows the frame keeps under [key r = k]. *)
Lemma rows_with_filter {K} `{KeyOrd K} `{EqDecision K}
    (key : BillRecord → K) k rs :
  rows_with key k rs = filter (λ r, key r = k) rs.
Proof.
  unfold rows_with. induction rs as [|r rs IH]; [done|].
  simpl. rewrite filter_cons, IH.
  destruct (kcmp (key r) k) eqn:Hc; case_decide as Hd; try done.
  - by apply kcmp_eq in Hc.
  - rewrite Hd, kcmp_refl in Hc. done.
  - rewrite Hd, kcmp_refl in Hc. done.
Qed.




(** ** Properties of the exports *)

Lemma filter_year_filter y rs : filter_year y rs = filter (λ r, year r = y) rs.
Proof.
  unfold filter_year. induction rs as [|r rs IH]; [done|].
  simpl. rewrite filter_cons, IH.
  destruct (Z.eqb_spec (year r) y); case_decide; done.
Qed.

Lemma filter_hsa_filter rs :
  filter_hsa rs = filter (λ r, category r ∈ hsa_eligible_categories) rs.
Proof.
  unfold filter_hsa. induction rs as [|r rs IH]; [done|].
  simpl. rewrite filter_cons, IH.
  case_bool_decide; case_decide; done.
Qed.


Lemma sort_by_date_sorted rs : Sorted date_le (sort_by_date rs).
Proof. apply (Sorted_merge_sort date_le). Qed.


Lemma sort_by_date_nil rs : sort_by_date rs = [] → rs = [].
Proof.
  intros E. apply Permutation_nil_r. rewrite <- E.
  symmetry. apply sort_by_date_perm.
Qed.

Lemma export_for_taxes_unfold y p m :
  export_for_taxes y p m =
  let path := resolve (default ("tax_export_" +:+ str_int y +:+ ".xlsx") p) in
  match filter_year y (rows (df m)) with
  | [] => (Raise (ValueError ("No records found for year " +:+ str_int y)), m)
  | _ =>
      (Ok path,
       {| workbook_path := workbook_path m; df := df m;
          fs := <[path := Xlsx (tax_workbook y
                                  (sort_by_date (filter_year y (rows (df m)))))]>
                  (fs m);
          stdout := stdout m
                    ++ ["Tax export for " +:+ str_int y +:+ " saved to " +:+ path];
          ticks := ticks m |})
  end.
Proof.
  unfold export_for_taxes. run. by destruct (filter_year y (rows (df m))).
Qed.

Lemma export_hsa_reconciliation_unfold p m :
  export_hsa_reconciliation p m =
  let path := resolve (default "hsa_reconciliation.xlsx" p) in
  match filter_hsa (rows (df m)) with
  | [] => (Raise (ValueError "No HSA-eligible records found"), m)
  | _ =>
      (Ok path,
       {| workbook_path := workbook_path m; df := df m;
          fs := <[path := Xlsx (hsa_workbook
                                  (sort_by_date (filter_hsa (rows (df m)))))]>
                  (fs m);
          stdout := stdout m ++ ["HSA reconciliation saved to " +:+ path];
          ticks := ticks m |})
  end.
Proof.
  unfold export_hsa_reconciliation. run.
  by destruct (filter_hsa (rows (df m))).
Qed.



(** ** Properties of the grouped sheets *)



Lemma group_sums_keys {K} `{KeyOrd K} (key : BillRecord → K) rs :
  fst <$> group_sums key rs = fst <$> groupby key rs.
Proof.
  unfold group_sums. rewrite <- list_fmap_compose. by apply list_fmap_ext.
Qed.



Lemma elem_of_group_sums {K} `{KeyOrd K} `{EqDecision K}
    (key : BillRecord → K) rs k s :
  (k, s) ∈ group_sums key rs
  ↔ filter (λ r, key r = k) rs ≠ []
    ∧ s = foldl fadd fzero (amount <$> filter (λ r, key r = k) rs).
Proof.
  unfold group_sums. rewrite list_elem_of_fmap. split.
  - intros ([k' g] & [= -> ->] & Hin). simpl.
    apply elem_of_groupby in Hin as [-> Hne].
    by rewrite <- rows_with_filter.
  - intros (Hne & ->). exists (k, filter (λ r, key r = k) rs).
    split; [done|]. apply elem_of_groupby.
    by rewrite rows_with_filter.
Qed.


#[local] Instance month_le_total : Total month_le.
Proof. intros a b. unfold month_le. lia. Qed.

(** C2, as amended: when some row has the requested year, the sheet
    [Monthly Summary] has the two columns [month_name] and [amount], the
    month number is not written; it has one row for each month number and
    month name that some row of that year carries, holding the month name
    and the sum of the amounts of the rows carrying them, and the rows are
    in ascending order of month number. *)
Theorem export_for_taxes_monthly y p m :
  (∃ r, r ∈ rows (df m) ∧ year r = y) →
  ∃ path year_df ms wb m',
    export_for_taxes y p m = (Ok path, m')
    ∧ fs m' = <[path := Xlsx wb]> (fs m)
    ∧ year_df ≡ₚ filter (λ r, year r = y) (rows (df m))
    ∧ Sorted (λ a b, Timestamp.le (date a) (date b)) year_df
    ∧ sheet "Monthly Summary" wb
      = Some {| tcolumns := ["month_name"; "amount"];
                trows := (λ g, [CStr (snd (fst g)); CFloat (snd g)]) <$> ms |}
    ∧ Sorted (λ a b, (fst (fst a) ≤ fst (fst b))%Z) ms
    ∧ NoDup (fst <$> ms)
    ∧ ∀ mo name s,
        ((mo, name), s) ∈ ms
        ↔ filter (λ r, (month r, Timestamp.month_name (date r)) = (mo, name))
            year_df ≠ []
          ∧ s = foldl fadd fzero
                  (amount <$>
                   filter (λ r, (month r, Timestamp.month_name (date r))
                                = (mo, name)) year_df).
Proof.
  intros (r & Hr & Hy). rewrite export_for_taxes_unfold. simpl.
  destruct (filter_year y (rows (df m))) as [|r0 rs] eqn:E.
  { assert (Hin : r ∈ filter_year y (rows (df m))).
    { rewrite filter_year_filter. by apply list_elem_of_filter. }
    rewrite E in Hin. by apply elem_of_nil in Hin. }
  eexists _, (sort_by_date (r0 :: rs)),
    (monthly_summary (sort_by_date (r0 :: rs))), _, _.
  split; [reflexivity|]. split; [reflexivity|].
  split; [rewrite <- filter_year_filter, E; apply sort_by_date_perm|].
  split; [apply sort_by_date_sorted|].
  split; [reflexivity|].
  split.
  { apply (Sorted_merge_sort month_le). }
  unfold monthly_summary. split.
  - rewrite merge_sort_Permutation, group_sums_keys.
    apply keys_sorted_NoDup, groupby_sorted.
  - intros mo name s. rewrite merge_sort_Permutation.
    apply (elem_of_group_sums
             (λ r, (month r, Timestamp.month_name (date r)))).
Qed.

(** * Further properties of the ledger *)

(** ** [add_record]: the parsed date, the frame and the stamps *)

(** X1: a record whose date text parses and whose amount coerces is appended
    with the parsed date, the year and the month of that date, the coerced
    amount, the single clock reading of the call as [added_on], and the
    defaults of the keys the input lacks. *)
Theorem add_record_parsed_date record m d a :
  to_datetime (default EmptyString (rd_date record)) = Some d →
  py_float (default (PyFloat fzero) (rd_amount record)) = Ok a →
  ∃ r m',
    add_record record m = (Ok tt, m')
    ∧ rows (df m') = rows (df m) ++ [r]
    ∧ ticks m' = S (ticks m)
    ∧ date r = d ∧ year r = Timestamp.year d ∧ month r = Timestamp.month d
    ∧ amount r = a
    ∧ added_on r = clock (ticks m)
    ∧ provider r = default EmptyString (rd_provider record)
    ∧ category r = default "medical" (rd_category record)
    ∧ description r = default EmptyString (rd_description record)
    ∧ pdf_path r = default EmptyString (rd_pdf_path record)
    ∧ (rd_amount record = None → a = fzero).
Proof.
  intros Hd Ha. rewrite add_record_unfold, Hd, Ha. simpl.
  eexists _, _. repeat split; try reflexivity.
  intros Hnone. rewrite Hnone in Ha. simpl in Ha. by inversion Ha.
Qed.

(** X2: whatever the input, [add_record] writes no file and prints nothing;
    the rows the frame had stay where they were, at most one row is added
    after them, and the clock is read at most twice. *)
Theorem add_record_frame record m :
  fs (add_record record m).2 = fs m
  ∧ stdout (add_record record m).2 = stdout m
  ∧ workbook_path (add_record record m).2 = workbook_path m
  ∧ rows (df m) `prefix_of` rows (df (add_record record m).2)
  ∧ (length (rows (df (add_record record m).2)) ≤ S (length (rows (df m))))%nat
  ∧ (ticks m ≤ ticks (add_record record m).2 ≤ ticks m + 2)%nat.
Proof.
  rewrite add_record_unfold. simpl.
  destruct (to_datetime _) as [d|]; destruct (py_float _) as [a|e]; simpl;
    repeat split; try done; try lia;
    try (by eexists); rewrite ?length_app; simpl; lia.
Qed.

(** The creation stamps of a ledger are in order, and each one is a clock
    reading taken before the present. *)
Definition stamps_ordered (m : Manager) : Prop :=
  StronglySorted Timestamp.le (added_on <$> rows (df m))
  ∧ Forall (λ r, ∃ k, (k < ticks m)%nat ∧ added_on r = clock k) (rows (df m)).

(** X3: with a clock that never goes back, the creation stamps of the rows
    are non-decreasing in insertion order: an empty ledger has them ordered
    and [add_record] keeps them ordered; and when the date falls back to the
    clock, the date of the new row is not after its stamp. *)
Theorem add_record_added_on_monotone record m :
  (∀ i j, (i ≤ j)%nat → Timestamp.le (clock i) (clock j)) →
  (rows (df m) = [] → stamps_ordered m)
  ∧ (stamps_ordered m → stamps_ordered (add_record record m).2)
  ∧ (∀ r, to_datetime (default EmptyString (rd_date record)) = None →
          rows (df (add_record record m).2) = rows (df m) ++ [r] →
          Timestamp.le (date r) (added_on r)).
Proof.
  intros Hmono. split; [|split].
  - intros Hnil. unfold stamps_ordered. rewrite Hnil. split; constructor.
  - intros [Hsorted Hpast]. rewrite add_record_unfold. simpl.
    set (t1 := match to_datetime _ with Some _ => ticks m | None => S (ticks m) end).
    assert (Ht1 : (ticks m ≤ t1)%nat) by (unfold t1; destruct (to_datetime _); lia).
    destruct (py_float _) as [a|e]; unfold stamps_ordered; simpl.
    + split.
      * rewrite fmap_app. apply StronglySorted_app_2; [|done|repeat constructor].
        intros x1 x2 Hx1 ->%list_elem_of_singleton.
        apply list_elem_of_fmap in Hx1 as (r & -> & Hr).
        eapply Forall_forall in Hpast as (k & Hk & ->); [|exact Hr].
        apply Hmono. lia.
      * apply Forall_app. split.
        -- eapply Forall_impl; [exact Hpast|].
           intros r (k & Hk & Hr). exists k. split; [lia|done].
        -- repeat constructor. exists t1. split; [lia|done].
    + split; [done|].
      eapply Forall_impl; [exact Hpast|].
      intros r (k & Hk & Hr). exists k. split; [lia|done].
  - intros r Hd. rewrite add_record_unfold, Hd. simpl.
    destruct (py_float _) as [a|e]; simpl.
    + intros Heq. apply app_inj_tail in Heq as [_ <-]. simpl.
      apply Hmono. lia.
    + intros Heq. apply (f_equal length) in Heq.
      rewrite length_app in Heq. simpl in Heq. lia.
Qed.

(** ** Columns and sheets *)

(** X4: [add_record] never drops or moves a column of the frame, and after a
    call that returns the frame has the nine canonical columns; a frame whose
    columns are the canonical ones keeps exactly those through [add_record]
    and [save], and [save] then writes them, in that order, as the header of
    [Bills], over rows of nine cells. *)
Theorem canonical_columns_kept record m :
  columns (df m) `prefix_of` columns (df (add_record record m).2)
  ∧ (∀ c, (add_record record m).1 = Ok tt → c ∈ canonical_columns →
          c ∈ columns (df (add_record record m).2))
  ∧ (columns (df m) = canonical_columns →
       columns (df (add_record record m).2) = canonical_columns
       ∧ columns (df (save m).2) = canonical_columns
       ∧ (df_empty (df m) = false →
            ∃ wb t,
              fs (save m).2 !! workbook_path m = Some (Xlsx wb)
              ∧ sheet "Bills" wb = Some t
              ∧ tcolumns t = canonical_columns
              ∧ Forall (λ row, length row = 9%nat) (trows t))).
Proof.
  split; [|split].
  - rewrite add_record_unfold. simpl.
    destruct (py_float _) as [a|e]; simpl; [by eexists|done].
  - intros c. rewrite add_record_unfold. cbv zeta.
    destruct (py_float _) as [a|e]; cbn [fst snd df]; [|done].
    unfold concat_row. cbn [columns].
    intros _ Hc. apply elem_of_app.
    destruct (decide (c ∈ columns (df m))); [by left|right].
    by apply list_elem_of_difference.
  - intros Hcols. split; [|split].
    + rewrite add_record_unfold. simpl.
      destruct (py_float _) as [a|e]; simpl; [|done]. by rewrite Hcols.
    + rewrite save_unfold. by destruct (df_empty (df m)).
    + intros He. rewrite save_unfold, He. simpl.
      eexists _, _. split; [apply lookup_insert_eq|].
      split; [reflexivity|]. simpl. split; [done|].
      rewrite Hcols. apply Forall_fmap, Forall_true. done.
Qed.

(** X5: [save] and the exports write one file at most, the one at their
    path: every other file is as before; the exports leave the frame as it
    is, and an export that raises changes nothing at all. *)
Theorem writers_touch_one_file m :
  (∀ q, q ≠ workbook_path m → fs (save m).2 !! q = fs m !! q)
  ∧ (∀ y p q,
       q ≠ resolve (default ("tax_export_" +:+ str_int y +:+ ".xlsx") p) →
       fs (export_for_taxes y p m).2 !! q = fs m !! q)
  ∧ (∀ p q,
       q ≠ resolve (default "hsa_reconciliation.xlsx" p) →
       fs (export_hsa_reconciliation p m).2 !! q = fs m !! q)
  ∧ (∀ y p, df (export_for_taxes y p m).2 = df m)
  ∧ (∀ p, df (export_hsa_reconciliation p m).2 = df m)
  ∧ (∀ y p e, (export_for_taxes y p m).1 = Raise e →
              (export_for_taxes y p m).2 = m)
  ∧ (∀ p e, (export_hsa_reconciliation p m).1 = Raise e →
            (export_hsa_reconciliation p m).2 = m).
Proof.
  repeat split.
  - intros q Hq. rewrite save_unfold.
    destruct (df_empty (df m)); simpl; [done|]. by rewrite lookup_insert_ne.
  - intros y p q Hq. rewrite export_for_taxes_unfold. simpl.
    destruct (filter_year y (rows (df m))); simpl; [done|].
    by rewrite lookup_insert_ne.
  - intros p q Hq. rewrite export_hsa_reconciliation_unfold. simpl.
    destruct (filter_hsa (rows (df m))); simpl; [done|].
    by rewrite lookup_insert_ne.
  - intros y p. apply export_for_taxes_df.
  - intros p. apply export_hsa_reconciliation_df.
  - intros y p e. rewrite export_for_taxes_unfold. simpl.
    by destruct (filter_year y (rows (df m))).
  - intros p e. rewrite export_hsa_reconciliation_unfold. simpl.
    by destruct (filter_hsa (rows (df m))).
Qed.

(** ** Groups partition the frame *)









(** ** The other sheets of the exports *)

Lemma group_sums_sorted {K} `{KeyOrd K} (key : BillRecord → K) rs :
  StronglySorted klt (fst <$> group_sums key rs).
Proof. rewrite group_sums_keys. apply groupby_sorted. Qed.

(** X9: when some row has the requested year, the sheet [Category Summary]
    of the tax export has one row per category among the rows of that year,
    in ascending order of category, holding the category and the sum of the
    amounts of the rows of that year with that category; and the sheet
    [Summary] holds the number of rows of [Details] and the requested
    year. *)
Theorem export_for_taxes_category_summary y p m :
  (∃ r, r ∈ rows (df m) ∧ year r = y) →
  ∃ path year_df cs total mean wb m',
    export_for_taxes y p m = (Ok path, m')
    ∧ fs m' = <[path := Xlsx wb]> (fs m)
    ∧ year_df ≡ₚ filter (λ r, year r = y) (rows (df m))
    ∧ sheet "Details" wb
      = Some (to_table ["date"; "provider"; "category"; "amount"; "description"]
                year_df)
    ∧ sheet "Category Summary" wb
      = Some {| tcolumns := ["Category"; "Total Amount"];
                trows := (λ g, [CStr (fst g); CFloat (snd g)]) <$> cs |}
    ∧ StronglySorted (λ a b, String.compare a b = Lt) (fst <$> cs)
    ∧ (∀ c s,
         (c, s) ∈ cs
         ↔ filter (λ r, category r = c) year_df ≠ []
           ∧ s = foldl fadd fzero
                   (amount <$> filter (λ r, category r = c) year_df))
    ∧ sheet "Summary" wb
      = Some {| tcolumns := ["Metric"; "Value"];
                trows := [[CStr "Total Amount"; CStr total];
                          [CStr "Number of Bills";
                           CInt (Z.of_nat (length year_df))];
                          [CStr "Average Bill Amount"; CStr mean];
                          [CStr "Tax Year"; CInt y]] |}.
Proof.
  intros (r & Hr & Hy). rewrite export_for_taxes_unfold. simpl.
  destruct (filter_year y (rows (df m))) as [|r0 rs] eqn:E.
  { assert (Hin : r ∈ filter_year y (rows (df m))).
    { rewrite filter_year_filter. by apply list_elem_of_filter. }
    rewrite E in Hin. by apply elem_of_nil in Hin. }
  eexists _, (sort_by_date (r0 :: rs)),
    (group_sums category (sort_by_date (r0 :: rs))), _, _, _, _.
  split; [reflexivity|]. split; [reflexivity|].
  split; [rewrite <- filter_year_filter, E; apply sort_by_date_perm|].
  split; [reflexivity|]. split; [reflexivity|].
  split; [exact (group_sums_sorted category (sort_by_date (r0 :: rs)))|].
  split; [|reflexivity].
  intros c s. apply (elem_of_group_sums category).
Qed.

(** X10: when some row has an eligible category, the sheet [Yearly Totals]
    of the HSA export has one row per year among the eligible rows, in
    ascending order of year, holding the year and the sum of the amounts of
    the eligible rows of that year. *)
Theorem export_hsa_reconciliation_yearly_totals p m :
  (∃ r, r ∈ rows (df m) ∧ category r ∈ hsa_eligible_categories) →
  ∃ path hsa_df ys wb m',
    export_hsa_reconciliation p m = (Ok path, m')
    ∧ fs m' = <[path := Xlsx wb]> (fs m)
    ∧ hsa_df ≡ₚ filter (λ r, category r ∈ hsa_eligible_categories) (rows (df m))
    ∧ sheet "Yearly Totals" wb
      = Some {| tcolumns := ["Year"; "Total HSA-Eligible Amount"];
                trows := (λ g, [CInt (fst g); CFloat (snd g)]) <$> ys |}
    ∧ StronglySorted Z.lt (fst <$> ys)
    ∧ (∀ y s,
         (y, s) ∈ ys
         ↔ filter (λ r, year r = y) hsa_df ≠ []
           ∧ s = foldl fadd fzero (amount <$> filter (λ r, year r = y) hsa_df)).
Proof.
  intros (r & Hr & Hc). rewrite export_hsa_reconciliation_unfold. simpl.
  destruct (filter_hsa (rows (df m))) as [|r0 rs] eqn:E.
  { assert (Hin : r ∈ filter_hsa (rows (df m))).
    { rewrite filter_hsa_filter. by apply list_elem_of_filter. }
    rewrite E in Hin. by apply elem_of_nil in Hin. }
  eexists _, (sort_by_date (r0 :: rs)),
    (group_sums year (sort_by_date (r0 :: rs))), _, _.
  split; [reflexivity|]. split; [reflexivity|].
  split; [rewrite <- filter_hsa_filter, E; apply sort_by_date_perm|].
  split; [reflexivity|].
  split.
  - exact (group_sums_sorted year (sort_by_date (r0 :: rs))).
  - intros y s. apply (elem_of_group_sums year).
Qed.

(** ** Adding, then exporting *)



(** ** Formatting the sheet [Bills] *)

(** [str(cell.value)] for the cells of a sheet. *)
Context (cell_text : Cell → string).

(** The longest text of a column, as the loop of [_format_bills_sheet]
    finds it. *)
Definition max_length (texts : list string) : nat :=
  foldl (λ mx s, if (mx <? String.length s)%nat then String.length s else mx)
    0%nat texts.

Definition adjusted_width (texts : list string) : nat :=
  (max_length texts + 2) `min` 50.

(** The texts of the column at position [j]: the header, then the cells. *)
Definition column_texts (t : Table) (j : nat) : list string :=
  default EmptyString (tcolumns t !! j)
    :: ((λ row, default "None" (cell_text <$> row !! j)) <$> trows t).

(** [_format_bills_sheet]: the width it sets for each column.  The styles of
    the header cells change no value and are left out. *)
Definition _format_bills_sheet (t : Table) : list nat :=
  (λ j, adjusted_width (column_texts t j)) <$> seq 0 (length (tcolumns t)).

Lemma foldl_max_length texts : ∀ mx,
  let r := foldl (λ mx s, if (mx <? String.length s)%nat
                          then String.length s else mx) mx texts in
  (mx ≤ r)%nat
  ∧ (∀ s, s ∈ texts → (String.length s ≤ r)%nat)
  ∧ (r = mx ∨ ∃ s, s ∈ texts ∧ r = String.length s).
Proof.
  induction texts as [|s texts IH]; intros mx; simpl.
  - split; [done|]. split; [by intros s ?%elem_of_nil|by left].
  - destruct (IH (if (mx <? String.length s)%nat then String.length s else mx))
      as (Hge & Hall & Hat).
    destruct (Nat.ltb_spec mx (String.length s)) as [Hlt|Hle].
    + split; [lia|]. split.
      * intros s' [->|Hs']%elem_of_cons; [done|by apply Hall].
      * right. destruct Hat as [->|(s' & Hs' & ->)].
        -- exists s. split; [by left|done].
        -- exists s'. split; [by right|done].
    + split; [done|]. split.
      * intros s' [->|Hs']%elem_of_cons; [lia|by apply Hall].
      * destruct Hat as [->|(s' & Hs' & ->)]; [by left|].
        right. exists s'. split; [by right|done].
Qed.

(** X13: [_format_bills_sheet] sets one width per column; each width is at
    least 2 and at most 50, it leaves two characters to spare over every
    text of the column that is at most 48 characters long, and it is 50 or
    the length of some text of the column plus 2. *)
Theorem format_bills_sheet_widths t :
  length (_format_bills_sheet t) = length (tcolumns t)
  ∧ ∀ j w,
      _format_bills_sheet t !! j = Some w →
      (2 ≤ w ≤ 50)%nat
      ∧ (∀ s, s ∈ column_texts t j →
              (String.length s + 2) `min` 50 ≤ w)%nat
      ∧ (w = 50%nat ∨ ∃ s, s ∈ column_texts t j ∧ w = (String.length s + 2)%nat).
Proof.
  unfold _format_bills_sheet. split; [by rewrite length_fmap, length_seq|].
  intros j w Hw. apply list_lookup_fmap_Some in Hw as (j' & -> & Hj').
  apply lookup_seq in Hj' as [-> _]. rewrite Nat.add_0_l.
  unfold adjusted_width, max_length.
  destruct (foldl_max_length (column_texts t j) 0) as (_ & Hall & Hat).
  cbv zeta in Hall, Hat.
  set (r := foldl _ 0%nat (column_texts t j)) in *.
  split; [lia|]. split.
  - intros s Hs. specialize (Hall s Hs). lia.
  - destruct Hat as [Hz|(s & Hs & Hr)].
    + right. exists (default EmptyString (tcolumns t !! j)).
      split; [by left|].
      assert (Hh := Hall _ (list_elem_of_here _ _ : default EmptyString (tcolumns t !! j)
                                     ∈ column_texts t j)).
      rewrite Hz in *. lia.
    + destruct (decide (String.length s + 2 ≤ 50)%nat).
      * right. exists s. split; [done|]. rewrite Hr. lia.
      * left. rewrite Hr. lia.
Qed.

(** ** The tool that adds a bill ([healthcare_agent.py])

    Each call builds a manager on the default workbook, adds the record and
    saves; whatever is raised is caught and reported in the result. *)

(** [json.dumps(record, indent=2)]. *)
Context (json_dumps : RecordDict → string).

(** What a tool returns: the text of its content and the error flag. *)
Record ToolResult := {
  text : string;
  isError : bool
}.

(** The world a tool call runs in: the files, the text printed, the clock. *)
Record World := {
  w_files : gmap string FileData;
  w_stdout : list string;
  w_ticks : nat
}.

Definition world_of (m : Manager) : World :=
  {| w_files := fs m; w_stdout := stdout m; w_ticks := ticks m |}.

Definition newline : string := String (ascii_of_nat 10) EmptyString.

(** The record the tool builds from its arguments: every key is present. *)
Definition record_of_args (args : RecordDict) : RecordDict :=
  {| rd_provider := Some (default EmptyString (rd_provider args));
     rd_date := Some (default EmptyString (rd_date args));
     rd_amount := Some (default (PyFloat fzero) (rd_amount args));
     rd_pdf_path := Some (default EmptyString (rd_pdf_path args));
     rd_description := Some (default EmptyString (rd_description args));
     rd_category := Some (default "medical" (rd_category args)) |}.

Definition add_bill_to_spreadsheet_tool (args : RecordDict) (w : World)
  : ToolResult * World :=
  let manager := init "healthcare_bills.xlsx" (w_files w) (w_stdout w) (w_ticks w) in
  let record := record_of_args args in
  match (add_record record;;; save) manager with
  | (Ok _, m) =>
      ({| text := "Successfully added bill record:" +:+ newline
                  +:+ json_dumps record;
          isError := false |}, world_of m)
  | (Raise e, m) =>
      ({| text := "Error adding record to spreadsheet: " +:+ exn_str e;
          isError := true |}, world_of m)
  end.


Lemma init_fields path files out t :
  workbook_path (init path files out t) = resolve path
  ∧ fs (init path files out t) = files
  ∧ ticks (init path files out t) = t
  ∧ df (init path files out t)
    = fst (_load_or_create_dataframe (resolve path) files out)
  ∧ stdout (init path files out t)
    = snd (_load_or_create_dataframe (resolve path) files out).
Proof.
  unfold init. by destruct (_load_or_create_dataframe _ _ _).
Qed.

(** X14: when the amount of the arguments does not coerce to a float, the
    tool reports the error of the coercion under the flag [isError], and no
    file is written. *)
Theorem add_bill_tool_bad_amount args w e :
  py_float (default (PyFloat fzero) (rd_amount args)) = Raise e →
  ∃ w',
    add_bill_to_spreadsheet_tool args w
    = ({| text := "Error adding record to spreadsheet: " +:+ exn_str e;
          isError := true |}, w')
    ∧ w_files w' = w_files w.
Proof.
  intros Ha. unfold add_bill_to_spreadsheet_tool, bind.
  rewrite add_record_unfold. cbv zeta. cbn [rd_amount record_of_args from_option id].
  rewrite Ha. eexists. split; [reflexivity|].
  cbn [world_of w_files fs]. apply init_fields.
Qed.


End Ledger.

(** * Scanning for PDF files and reading them ([pdf_utils.py])

    The file system is seen through [stat]: what is at a resolved path, a
    file or a directory with its entries.  Names are matched and compared as
    on a POSIX system: with the case as it is.  Links and entries that cannot
    be read are outside the model. *)

Module PdfUtils.

Inductive error :=
| ValueError (msg : string)
| Exception (msg : string).

Inductive outcome (A : Type) :=
| Returned (a : A)
| Raised (e : error).
Arguments Returned {A} a.
Arguments Raised {A} e.

Inductive Node :=
| File
| Dir (entries : list (string * Node)).

(** [s.endswith(suffix)]. *)
Fixpoint ends_with (suffix s : string) : bool :=
  String.eqb suffix s
  || match s with
     | EmptyString => false
     | String _ s' => ends_with suffix s'
     end.

(** A name matches the pattern [*.pdf]. *)
Definition is_pdf_name (name : string) : bool := ends_with ".pdf" name.

(** [str(dir / name)]. *)
Definition child (dir name : string) : string :=
  if String.eqb dir "/" then "/" +:+ name else dir +:+ "/" +:+ name.

(** [dir.glob("*.pdf")]: the matching entries of the directory. *)
Definition glob (dir : string) (n : Node) : list string :=
  match n with
  | File => []
  | Dir entries =>
      flat_map (λ e, if is_pdf_name (fst e) then [child dir (fst e)] else [])
        entries
  end.

(** [dir.rglob("*.pdf")]: the matching entries of the directory and of the
    directories below it.  The order of the listing does not matter to
    [scan_for_pdfs], which sorts it. *)
Fixpoint rglob (dir : string) (n : Node) {struct n} : list string :=
  match n with
  | File => []
  | Dir entries =>
      (fix each (es : list (string * Node)) : list string :=
         match es with
         | [] => []
         | e :: es' =>
             ((if is_pdf_name (fst e) then [child dir (fst e)] else [])
                ++ rglob (child dir (fst e)) (snd e))
               ++ each es'
         end) entries
  end.

Section Scan.
Context (resolve : string → string) (stat : string → option Node).

Definition scan_for_pdfs (directory : string) (recursive : bool)
  : outcome (list string) :=
  let directory_path := resolve directory in
  match stat directory_path with
  | None => Raised (ValueError ("Directory does not exist: " +:+ directory))
  | Some File => Raised (ValueError ("Path is not a directory: " +:+ directory))
  | Some (Dir entries) =>
      let pdf_files :=
        if recursive then rglob directory_path (Dir entries)
        else glob directory_path (Dir entries) in
      Returned (merge_sort String.le pdf_files)
  end.

End Scan.

(** A matching entry at some depth below a directory, with its path. *)
Inductive found : string → Node → string → Prop :=
| found_here dir entries name c :
    (name, c) ∈ entries → is_pdf_name name = true →
    found dir (Dir entries) (child dir name)
| found_below dir entries name c p :
    (name, c) ∈ entries → found (child dir name) c p →
    found dir (Dir entries) p.

Lemma Node_nested_ind (P : Node → Prop) :
  P File →
  (∀ entries, Forall (λ e, P (snd e)) entries → P (Dir entries)) →
  ∀ n, P n.
Proof.
  intros HF HD. fix IH 1. intros [|entries]; [exact HF|].
  apply HD. induction entries as [|e es IHes]; constructor;
    [apply IH|exact IHes].
Qed.

Lemma rglob_Dir dir entries :
  rglob dir (Dir entries)
  = flat_map (λ e, (if is_pdf_name (fst e) then [child dir (fst e)] else [])
                     ++ rglob (child dir (fst e)) (snd e)) entries.
Proof.
  simpl. induction entries as [|e es IH]; [done|]. simpl. by rewrite IH.
Qed.

Lemma elem_of_flat_map {A B} (f : A → list B) (l : list A) (y : B) :
  y ∈ flat_map f l ↔ ∃ x, x ∈ l ∧ y ∈ f x.
Proof.
  rewrite list_elem_of_In, in_flat_map. split.
  - intros (x & Hx & Hy). exists x. by rewrite !list_elem_of_In.
  - intros (x & Hx & Hy). exists x. by rewrite <- !list_elem_of_In.
Qed.

Lemma elem_of_glob dir entries p :
  p ∈ glob dir (Dir entries)
  ↔ ∃ name c, (name, c) ∈ entries ∧ is_pdf_name name = true ∧ p = child dir name.
Proof.
  simpl. rewrite elem_of_flat_map. split.
  - intros ([name c] & He & Hp). simpl in Hp.
    destruct (is_pdf_name name) eqn:Hn; [|by apply elem_of_nil in Hp].
    apply list_elem_of_singleton in Hp. by exists name, c.
  - intros (name & c & He & Hn & ->). exists (name, c). split; [done|].
    simpl. rewrite Hn. by left.
Qed.

Lemma elem_of_rglob n : ∀ dir p, p ∈ rglob dir n ↔ found dir n p.
Proof.
  induction n as [|entries IH] using Node_nested_ind; intros dir p.
  - split; [by intros ?%elem_of_nil|inversion 1].
  - rewrite rglob_Dir, elem_of_flat_map. split.
    + intros ([name c] & He & Hp). simpl in Hp.
      apply elem_of_app in Hp as [Hp|Hp].
      * destruct (is_pdf_name name) eqn:Hn; [|by apply elem_of_nil in Hp].
        apply list_elem_of_singleton in Hp as ->. by eapply found_here.
      * eapply found_below; [exact He|].
        eapply Forall_forall in IH; [|exact He]. by apply IH.
    + inversion 1 as [? ? name c He Hn|? ? name c ? He Hf]; subst.
      * exists (name, c). split; [done|]. simpl. rewrite Hn.
        apply elem_of_app. left. by left.
      * exists (name, c). split; [done|]. simpl. apply elem_of_app. right.
        eapply Forall_forall in IH; [|exact He]. by apply IH.
Qed.

Lemma ends_with_append suffix pre s :
  ends_with suffix s = true → ends_with suffix (pre +:+ s) = true.
Proof.
  intros Hs. induction pre as [|c pre IH]; [done|].
  change (String c pre +:+ s) with (String c (pre +:+ s)).
  simpl. rewrite IH. apply orb_true_r.
Qed.

Lemma ends_with_child suffix dir name :
  ends_with suffix name = true → ends_with suffix (child dir name) = true.
Proof.
  intros Hn. unfold child.
  destruct (String.eqb dir "/"); [by apply ends_with_append|].
  apply ends_with_append. by apply (ends_with_append suffix "/").
Qed.

Lemma append_assoc (a b c : string) : (a +:+ b) +:+ c = a +:+ (b +:+ c).
Proof.
  induction a as [|x a IH]; [done|].
  change ((String x a +:+ b) +:+ c) with (String x ((a +:+ b) +:+ c)).
  by rewrite IH.
Qed.

Lemma prefix_append (a b : string) : String.prefix a (a +:+ b) = true.
Proof.
  induction a as [|x a IH]; [by destruct b|].
  change (String x a +:+ b) with (String x (a +:+ b)). simpl.
  destruct (ascii_dec x x); [done|congruence].
Qed.

(** A path below a directory: the path of the directory and something
    more. *)
Definition below (dir p : string) : Prop :=
  ∃ rest, rest ≠ EmptyString ∧ p = dir +:+ rest.

Lemma ends_with_nonempty suffix s :
  suffix ≠ EmptyString → ends_with suffix s = true → s ≠ EmptyString.
Proof.
  intros Hsuf Hs ->. simpl in Hs. rewrite orb_false_r in Hs.
  by apply String.eqb_eq in Hs.
Qed.

Lemma child_below dir name : name ≠ EmptyString → below dir (child dir name).
Proof.
  intros Hn. unfold child.
  destruct (String.eqb_spec dir "/") as [->|_].
  - by exists name.
  - exists ("/" +:+ name). split; [done|]. reflexivity.
Qed.

Lemma below_trans dir mid p : below dir mid → below mid p → below dir p.
Proof.
  intros (r1 & _ & ->) (r2 & Hr2 & ->). exists (r1 +:+ r2). split.
  - destruct r1; [done|discriminate].
  - apply append_assoc.
Qed.

Lemma below_prefix dir p :
  below dir p → String.prefix dir p = true ∧ p ≠ dir.
Proof.
  intros (rest & Hrest & ->). split; [apply prefix_append|].
  intros E. apply Hrest.
  assert (E' : dir +:+ rest = dir +:+ EmptyString).
  { rewrite E. clear. induction dir as [|c d IH]; [done|].
    change (String c d +:+ EmptyString) with (String c (d +:+ EmptyString)).
    by rewrite <- IH. }
  by apply (inj (String.app dir)) in E'.
Qed.

Lemma found_pdf_below n : ∀ dir p,
  found dir n p → ends_with ".pdf" p = true ∧ below dir p.
Proof.
  intros dir p Hf. induction Hf as [dir es name c He Hn|dir es name c p He Hf IH].
  - split; [by apply ends_with_child|].
    apply child_below. by apply (ends_with_nonempty ".pdf").
  - destruct IH as [Hpdf Hbelow]. split; [done|].
    destruct Hbelow as (rest & Hrest & ->).
    unfold child. destruct (String.eqb_spec dir "/") as [->|_].
    + exists (name +:+ rest). split.
      * destruct name; [done|discriminate].
      * apply append_assoc.
    + exists (("/" +:+ name) +:+ rest). split; [discriminate|].
      by rewrite <- !append_assoc.
Qed.

Section ScanProperties.
Context (resolve : string → string) (stat : string → option Node).

(** X16: [scan_for_pdfs] raises exactly when the resolved path is not a
    directory: "Directory does not exist" when nothing is there, "Path is
    not a directory" when a file is there, both quoting the argument as it
    was given; a directory without matching entry gives the empty list. *)
Theorem scan_for_pdfs_errors directory recursive :
  (stat (resolve directory) = None →
     scan_for_pdfs resolve stat directory recursive
     = Raised (ValueError ("Directory does not exist: " +:+ directory)))
  ∧ (stat (resolve directory) = Some File →
       scan_for_pdfs resolve stat directory recursive
       = Raised (ValueError ("Path is not a directory: " +:+ directory)))
  ∧ ((∃ ps, scan_for_pdfs resolve stat directory recursive = Returned ps)
       ↔ ∃ entries, stat (resolve directory) = Some (Dir entries))
  ∧ (stat (resolve directory) = Some (Dir []) →
       scan_for_pdfs resolve stat directory recursive = Returned []).
Proof.
  unfold scan_for_pdfs. cbv zeta.
  destruct (stat (resolve directory)) as [[|entries]|].
  - split; [done|]. split; [done|]. split; [|done].
    split; [by intros [ps ?]|by intros [es ?]].
  - split; [done|]. split; [done|]. split.
    + split; [intros _; by exists entries|intros _; by eexists].
    + intros Hd. inversion Hd. by destruct recursive.
  - split; [done|]. split; [done|]. split; [|done].
    split; [by intros [ps ?]|by intros [es ?]].
Qed.

(** X17: the paths [scan_for_pdfs] returns are in ascending order, each one
    ends with [.pdf], and each one is the resolved directory followed by
    something more. *)
Theorem scan_for_pdfs_sorted directory recursive ps :
  scan_for_pdfs resolve stat directory recursive = Returned ps →
  StronglySorted String.le ps
  ∧ ∀ p, p ∈ ps →
      ends_with ".pdf" p = true
      ∧ String.prefix (resolve directory) p = true
      ∧ p ≠ resolve directory.
Proof.
  unfold scan_for_pdfs. cbv zeta.
  destruct (stat (resolve directory)) as [[|entries]|]; try done.
  intros [= <-]. split; [apply (StronglySorted_merge_sort String.le)|].
  intros p. rewrite merge_sort_Permutation. intros Hp.
  assert (Hf : found (resolve directory) (Dir entries) p).
  { destruct recursive; [by apply elem_of_rglob|].
    apply elem_of_glob in Hp as (name & c & He & Hn & ->).
    by eapply found_here. }
  destruct (found_pdf_below _ _ _ Hf) as [Hpdf Hbelow].
  split; [done|]. by apply below_prefix.
Qed.

(** X18: without recursion [scan_for_pdfs] returns the paths of the entries
    of the directory whose name ends with [.pdf], and nothing else; with
    recursion it returns the paths of such entries at every depth, and
    nothing else; so whatever is found without recursion is found with
    it. *)
Theorem scan_for_pdfs_finds directory entries :
  stat (resolve directory) = Some (Dir entries) →
  ∃ flat deep,
    scan_for_pdfs resolve stat directory false = Returned flat
    ∧ scan_for_pdfs resolve stat directory true = Returned deep
    ∧ (∀ p, p ∈ flat
            ↔ ∃ name c, (name, c) ∈ entries ∧ ends_with ".pdf" name = true
                        ∧ p = child (resolve directory) name)
    ∧ (∀ p, p ∈ deep ↔ found (resolve directory) (Dir entries) p)
    ∧ (∀ p, p ∈ flat → p ∈ deep).
Proof.
  intros Hstat. unfold scan_for_pdfs. rewrite Hstat. cbv zeta.
  eexists _, _. split; [reflexivity|]. split; [reflexivity|].
  split; [|split].
  - intros p. rewrite merge_sort_Permutation. apply elem_of_glob.
  - intros p. rewrite merge_sort_Permutation. apply elem_of_rglob.
  - intros p. rewrite !merge_sort_Permutation. intros Hp.
    apply elem_of_rglob.
    apply elem_of_glob in Hp as (name & c & He & Hn & ->).
    by eapply found_here.
Qed.

End ScanProperties.

(** ** Reading the text of a PDF file *)

(** What a page gives when its text is asked for: a text or none, or an
    error, by its message. *)
Inductive page :=
| Text (t : option string)
| Fails (msg : string).

(** What opening a document gives: an error, by its message, or the
    pages. *)
Inductive document :=
| CannotOpen (msg : string)
| Pages (pages : list page).

Definition newline : string := String (ascii_of_nat 10) EmptyString.

(** [s.lower()], on the letters A to Z. *)
Definition lower_char (c : ascii) : ascii :=
  let n := nat_of_ascii c in
  if ((65 <=? n) && (n <=? 90))%nat then ascii_of_nat (n + 32) else c.

Fixpoint lower (s : string) : string :=
  match s with
  | EmptyString => EmptyString
  | String c s' => String (lower_char c) (lower s')
  end.

Section Extract.
(** [Path.resolve], [Path.exists] and [Path.suffix], which characters are
    whitespace, and the two readers. *)
Context (resolve : string → string) (exists_ : string → bool).
Context (path_suffix : string → string) (isspace : ascii → bool).
Context (pdfplumber_open PyPDF2_open : string → document).

Fixpoint lstrip (s : string) : string :=
  match s with
  | EmptyString => EmptyString
  | String c s' => if isspace c then lstrip s' else s
  end.

Fixpoint rstrip (s : string) : string :=
  match s with
  | EmptyString => EmptyString
  | String c s' =>
      let t := rstrip s' in
      if isspace c && String.eqb t EmptyString then EmptyString
      else String c t
  end.

(** [s.strip()]. *)
Definition strip (s : string) : string := rstrip (lstrip s).

(** What a page with text adds to the text. *)
Definition page_block (page_num : nat) (page_text : string) : string :=
  newline +:+ "--- Page " +:+ str_int (Z.of_nat page_num) +:+ " ---" +:+ newline
    +:+ page_text +:+ newline.

(** The loop over the pages: the text so far grows by the block of each
    page that has text, until a page fails. *)
Fixpoint read_pages (page_num : nat) (pages : list page) (text : string)
  : string * option string :=
  match pages with
  | [] => (text, None)
  | Text None :: pages' => read_pages (S page_num) pages' text
  | Text (Some page_text) :: pages' =>
      if String.eqb page_text EmptyString
      then read_pages (S page_num) pages' text
      else read_pages (S page_num) pages' (text +:+ page_block page_num page_text)
  | Fails msg :: _ => (text, Some msg)
  end.

Definition read (d : document) (text : string) : string * option string :=
  match d with
  | CannotOpen msg => (text, Some msg)
  | Pages pages => read_pages 1 pages text
  end.

(** The end of [extract_pdf_text]: the text is returned stripped, unless
    nothing is left of it. *)
Definition finish (text : string) : outcome string :=
  if String.eqb (strip text) EmptyString
  then Raised (Exception "No text could be extracted from the PDF. The PDF might be image-based or encrypted.")
  else Returned (strip text).

Definition extract_pdf_text (pdf_path : string) : outcome string :=
  let pdf_path := resolve pdf_path in
  if negb (exists_ pdf_path)
  then Raised (ValueError ("File does not exist: " +:+ pdf_path))
  else if negb (String.eqb (lower (path_suffix pdf_path)) ".pdf")
  then Raised (ValueError ("File is not a PDF: " +:+ pdf_path))
  else
    match read (pdfplumber_open pdf_path) EmptyString with
    | (text, None) => finish text
    | (text, Some e) =>
        match read (PyPDF2_open pdf_path) text with
        | (text, None) => finish text
        | (_, Some fallback_error) =>
            Raised (Exception
                      ("Failed to extract text using both methods. "
                       +:+ "pdfplumber error: " +:+ e +:+ ", "
                       +:+ "PyPDF2 error: " +:+ fallback_error))
        end
    end.

(** The text made of whitespace only. *)
Fixpoint blank (s : string) : bool :=
  match s with
  | EmptyString => true
  | String c s' => isspace c && blank s'
  end.

(** The blocks of the pages with text, up to the first page that fails,
    and the message of that page. *)
Fixpoint blocks (page_num : nat) (pages : list page) : string :=
  match pages with
  | [] => EmptyString
  | Text None :: pages' => blocks (S page_num) pages'
  | Text (Some t) :: pages' =>
      (if String.eqb t EmptyString then EmptyString else page_block page_num t)
        +:+ blocks (S page_num) pages'
  | Fails _ :: _ => EmptyString
  end.

Fixpoint first_failure (pages : list page) : option string :=
  match pages with
  | [] => None
  | Text _ :: pages' => first_failure pages'
  | Fails msg :: _ => Some msg
  end.

Definition doc_text (d : document) : string :=
  match d with
  | CannotOpen _ => EmptyString
  | Pages pages => blocks 1 pages
  end.

Definition doc_error (d : document) : option string :=
  match d with
  | CannotOpen msg => Some msg
  | Pages pages => first_failure pages
  end.

Lemma append_nil_r (s : string) : s +:+ EmptyString = s.
Proof.
  induction s as [|c s IH]; [done|].
  change (String c s +:+ EmptyString) with (String c (s +:+ EmptyString)).
  by rewrite IH.
Qed.

Lemma read_pages_blocks pages : ∀ page_num text,
  read_pages page_num pages text
  = (text +:+ blocks page_num pages, first_failure pages).
Proof.
  induction pages as [|[[t|]|msg] pages IH]; intros page_num text; simpl.
  - by rewrite append_nil_r.
  - destruct (String.eqb t EmptyString).
    + rewrite IH. done.
    + rewrite IH. by rewrite append_assoc.
  - apply IH.
  - by rewrite append_nil_r.
Qed.

Lemma read_doc d text : read d text = (text +:+ doc_text d, doc_error d).
Proof.
  destruct d as [msg|pages]; simpl.
  - by rewrite append_nil_r.
  - apply read_pages_blocks.
Qed.

Lemma lstrip_length s : (String.length (lstrip s) ≤ String.length s)%nat.
Proof.
  induction s as [|c s IH]; simpl; [done|].
  destruct (isspace c); simpl; lia.
Qed.

Lemma lstrip_head s :
  lstrip s = EmptyString
  ∨ ∃ c t, lstrip s = String c t ∧ isspace c = false.
Proof.
  induction s as [|c s IH]; simpl; [by left|].
  destruct (isspace c) eqn:Hc; [done|]. right. by exists c, s.
Qed.

Lemma lstrip_blank s : lstrip s = EmptyString ↔ blank s = true.
Proof.
  induction s as [|c s IH]; simpl; [done|].
  destruct (isspace c); simpl; [exact IH|]. split; discriminate.
Qed.

Lemma rstrip_idem s : rstrip (rstrip s) = rstrip s.
Proof.
  induction s as [|c s IH]; simpl; [done|].
  destruct (isspace c && String.eqb (rstrip s) EmptyString) eqn:E; [done|].
  simpl. by rewrite IH, E.
Qed.

Lemma strip_fixed s : lstrip (strip s) = strip s ∧ rstrip (strip s) = strip s.
Proof.
  unfold strip. split; [|apply rstrip_idem].
  destruct (lstrip_head s) as [->|(c & t & -> & Hc)]; [done|].
  simpl. rewrite Hc. simpl. by rewrite Hc.
Qed.

Lemma strip_blank s : strip s = EmptyString ↔ blank s = true.
Proof.
  rewrite <- lstrip_blank. unfold strip.
  destruct (lstrip_head s) as [->|(c & t & -> & Hc)]; [done|].
  simpl. rewrite Hc. simpl. split; discriminate.
Qed.

Lemma blank_append a b : blank (a +:+ b) = blank a && blank b.
Proof.
  induction a as [|c a IH]; [done|].
  change (String c a +:+ b) with (String c (a +:+ b)). simpl.
  by rewrite IH, andb_assoc.
Qed.

Lemma finish_returned text t :
  finish text = Returned t →
  t = strip text ∧ t ≠ EmptyString.
Proof.
  unfold finish. destruct (String.eqb_spec (strip text) EmptyString); [done|].
  by intros [= <-].
Qed.

(** X19: a [ValueError] comes from the two checks on the path and from
    nothing else: "File does not exist" when nothing is at the resolved
    path, whatever its suffix, and "File is not a PDF" when something is
    there and the suffix, in lower case, is not [.pdf]. *)
Theorem extract_pdf_text_checks pdf_path :
  (exists_ (resolve pdf_path) = false →
     extract_pdf_text pdf_path
     = Raised (ValueError ("File does not exist: " +:+ resolve pdf_path)))
  ∧ (exists_ (resolve pdf_path) = true →
     lower (path_suffix (resolve pdf_path)) ≠ ".pdf" →
     extract_pdf_text pdf_path
     = Raised (ValueError ("File is not a PDF: " +:+ resolve pdf_path)))
  ∧ ((∃ msg, extract_pdf_text pdf_path = Raised (ValueError msg))
       ↔ exists_ (resolve pdf_path) = false
         ∨ lower (path_suffix (resolve pdf_path)) ≠ ".pdf").
Proof.
  unfold extract_pdf_text. cbv zeta.
  destruct (exists_ (resolve pdf_path)); simpl.
  - destruct (String.eqb_spec (lower (path_suffix (resolve pdf_path))) ".pdf")
      as [Heq|Hne]; simpl.
    + split; [done|]. split; [done|]. split; [|by intros [?|?]].
      intros [msg Hmsg]. exfalso. rewrite !read_doc in Hmsg.
      unfold finish in Hmsg.
      repeat match type of Hmsg with
             | context [match ?x with _ => _ end] => destruct x
             | context [if ?x then _ else _] => destruct x
             end; discriminate.
    + split; [done|]. split; [done|]. split; [by right|by eexists].
  - split; [done|]. split; [done|]. split; [by left|by eexists].
Qed.

(** X20: a text [extract_pdf_text] returns is never empty and has no
    whitespace at its start or at its end. *)
Theorem extract_pdf_text_stripped pdf_path t :
  extract_pdf_text pdf_path = Returned t →
  t ≠ EmptyString ∧ lstrip t = t ∧ rstrip t = t.
Proof.
  unfold extract_pdf_text. cbv zeta.
  destruct (negb _); [done|]. destruct (negb _); [done|].
  rewrite !read_doc.
  assert (Hfin : ∀ text, finish text = Returned t →
                         t ≠ EmptyString ∧ lstrip t = t ∧ rstrip t = t).
  { intros text [-> Hne]%finish_returned. split; [done|]. apply strip_fixed. }
  destruct (doc_error (pdfplumber_open _)); [|by apply Hfin].
  cbv beta iota.
  destruct (doc_error (PyPDF2_open _)); [done|by apply Hfin].
Qed.

(** X21: for a path that passes the checks, the result is read off the two
    documents.  When the first reader gives all its pages the text is made
    of the blocks of its pages, each page with text under a header that
    holds its number, and the second reader is not consulted.  When the
    first reader fails, at opening or at a page, the blocks it gave before
    failing are kept and those of the second reader come after them.  When
    both fail the error holds both messages. *)
Theorem extract_pdf_text_readers pdf_path :
  exists_ (resolve pdf_path) = true →
  lower (path_suffix (resolve pdf_path)) = ".pdf" →
  extract_pdf_text pdf_path
  = match doc_error (pdfplumber_open (resolve pdf_path)) with
    | None => finish (doc_text (pdfplumber_open (resolve pdf_path)))
    | Some e =>
        match doc_error (PyPDF2_open (resolve pdf_path)) with
        | None =>
            finish (doc_text (pdfplumber_open (resolve pdf_path))
                    +:+ doc_text (PyPDF2_open (resolve pdf_path)))
        | Some fallback_error =>
            Raised (Exception
                      ("Failed to extract text using both methods. pdfplumber error: "
                       +:+ e +:+ ", PyPDF2 error: " +:+ fallback_error))
        end
    end.
Proof.
  intros Hex Hsuf. unfold extract_pdf_text. cbv zeta.
  rewrite Hex, Hsuf. simpl. rewrite !read_doc.
  destruct (doc_error (pdfplumber_open _)); [|done].
  cbv beta iota.
  destruct (doc_error (PyPDF2_open _)); reflexivity.
Qed.

(** A page without text: none, or the empty one. *)
Definition no_text (pg : page) : Prop :=
  pg = Text None ∨ pg = Text (Some EmptyString).

Lemma blank_page_block page_num t :
  isspace "-" = false → blank (page_block page_num t) = false.
Proof.
  intros Hdash. unfold page_block. rewrite blank_append.
  change ("--- Page " +:+ ?x) with (String "-" ("-- Page " +:+ x)).
  simpl. rewrite Hdash. simpl. apply andb_false_r.
Qed.

Lemma blank_blocks pages : ∀ page_num,
  isspace "-" = false → first_failure pages = None →
  blank (blocks page_num pages) = true ↔ Forall no_text pages.
Proof.
  intros page_num Hdash. revert page_num.
  induction pages as [|[[t|]|msg] pages IH]; intros page_num Hfail; simpl.
  - split; [constructor|done].
  - rewrite blank_append. destruct (String.eqb_spec t EmptyString) as [->|Hne].
    + simpl. rewrite (IH _ Hfail). split.
      * intros H. constructor; [by right|done].
      * by intros [_ H]%Forall_cons.
    + rewrite blank_page_block by done. simpl. split; [done|].
      intros [[H|H] _]%Forall_cons; congruence.
  - rewrite (IH _ Hfail). split.
    + intros H. constructor; [by left|done].
    + by intros [_ H]%Forall_cons.
  - done.
Qed.

Lemma blocks_app pre : ∀ page_num rest,
  first_failure pre = None →
  blocks page_num (pre ++ rest)
  = blocks page_num pre +:+ blocks (page_num + length pre) rest.
Proof.
  induction pre as [|[[t|]|msg] pre IH]; intros page_num rest Hfail; simpl.
  - by rewrite Nat.add_0_r.
  - by rewrite (IH _ _ Hfail), append_assoc, Nat.add_succ_r.
  - by rewrite (IH _ _ Hfail), Nat.add_succ_r.
  - done.
Qed.

(** X22: when the first reader gives all its pages, and the hyphen is no
    whitespace, [extract_pdf_text] raises "No text could be extracted"
    exactly when no page has a text; a page whose text is whitespace only
    counts as a page with text. *)
Theorem extract_pdf_text_no_text pdf_path pages :
  isspace "-" = false →
  exists_ (resolve pdf_path) = true →
  lower (path_suffix (resolve pdf_path)) = ".pdf" →
  pdfplumber_open (resolve pdf_path) = Pages pages →
  first_failure pages = None →
  extract_pdf_text pdf_path
  = Raised (Exception "No text could be extracted from the PDF. The PDF might be image-based or encrypted.")
  ↔ Forall no_text pages.
Proof.
  intros Hdash Hex Hsuf Hdoc Hfail.
  unfold extract_pdf_text. cbv zeta.
  rewrite Hex, Hsuf, Hdoc, read_doc. simpl. rewrite Hfail.
  change (EmptyString +:+ ?x) with x.
  rewrite <- (blank_blocks pages 1 Hdash Hfail), <- strip_blank.
  unfold finish. destruct (String.eqb_spec (strip (blocks 1 pages)) EmptyString);
    split; done.
Qed.

(** X23: the header of a page holds the position of the page in the
    document, counting the pages without text: when the first reader gives
    all its pages and the page after [before] has the text [t], the text
    that is stripped and returned has the block of that page with the
    number [length before + 1], after the blocks of the pages before it
    and before those of the pages after it. *)
Theorem extract_pdf_text_page_numbers pdf_path before t after :
  exists_ (resolve pdf_path) = true →
  lower (path_suffix (resolve pdf_path)) = ".pdf" →
  pdfplumber_open (resolve pdf_path)
  = Pages (before ++ Text (Some t) :: after) →
  first_failure (before ++ Text (Some t) :: after) = None →
  t ≠ EmptyString →
  extract_pdf_text pdf_path
  = finish (blocks 1 before
            +:+ (newline +:+ "--- Page " +:+ str_int (Z.of_nat (S (length before)))
                 +:+ " ---" +:+ newline +:+ t +:+ newline)
            +:+ blocks (S (S (length before))) after).
Proof.
  intros Hex Hsuf Hdoc Hfail Ht.
  unfold extract_pdf_text. cbv zeta.
  rewrite Hex, Hsuf, Hdoc, read_doc. simpl. rewrite Hfail.
  change (EmptyString +:+ ?x) with x.
  assert (Hpre : first_failure before = None).
  { clear -Hfail. induction before as [|[?|?] ? IH]; simpl in *; auto. }
  rewrite blocks_app by done. simpl.
  apply String.eqb_neq in Ht. rewrite Ht. reflexivity.
Qed.

End Extract.

(** ** The metadata of a PDF file *)

(** The values of the dictionary [extract_pdf_metadata] returns. *)
Inductive meta_value :=
| MStr (s : string)
| MInt (n : Z).

(** How far the reader of the metadata gets: it fails at opening, at the
    count of the pages, at the document information, or it gives the count
    and the information, if the document has one. *)
Inductive meta_reader :=
| OpenFails (msg : string)
| PagesFail (msg : string)
| InfoFails (num_pages : Z) (msg : string)
| Read (num_pages : Z) (info : option (gmap string string)).

Section Metadata.
Context (resolve : string → string) (exists_ : string → bool).
Context (path_name : string → string) (st_size : string → Z).
Context (PdfReader : string → meta_reader).

Definition info_keys : list (string * string) :=
  [("title", "/Title"); ("author", "/Author"); ("subject", "/Subject");
   ("creator", "/Creator"); ("producer", "/Producer");
   ("creation_date", "/CreationDate")].

(** The assignments [metadata[key] = reader.metadata.get(name, empty)],
    the default being the empty string. *)
Definition with_info (info : gmap string string)
    (metadata : gmap string meta_value) : gmap string meta_value :=
  foldl (λ md kn, <[fst kn := MStr (default EmptyString (info !! snd kn))]> md)
    metadata info_keys.

Definition with_error (msg : string) (metadata : gmap string meta_value)
  : gmap string meta_value :=
  <["error" := MStr ("Failed to extract metadata: " +:+ msg)]> metadata.

Definition extract_pdf_metadata (pdf_path : string)
  : outcome (gmap string meta_value) :=
  let pdf_path := resolve pdf_path in
  if negb (exists_ pdf_path)
  then Raised (ValueError ("File does not exist: " +:+ pdf_path))
  else
    let metadata : gmap string meta_value :=
      <["file_size_bytes" := MInt (st_size pdf_path)]>
        (<["file_name" := MStr (path_name pdf_path)]>
           (<["file_path" := MStr pdf_path]> ∅)) in
    Returned
      match PdfReader pdf_path with
      | OpenFails msg => with_error msg metadata
      | PagesFail msg => with_error msg metadata
      | InfoFails n msg =>
          with_error msg (<["num_pages" := MInt n]> metadata)
      | Read n info =>
          let metadata := <["num_pages" := MInt n]> metadata in
          match info with
          | Some i => if decide (i = ∅) then metadata else with_info i metadata
          | None => metadata
          end
      end.

Ltac look :=
  repeat (rewrite lookup_insert_ne by done);
  rewrite ?lookup_insert_eq, ?lookup_empty.

(** X24: for a path at which something exists, [extract_pdf_metadata] does
    not raise whatever the reader does.  The dictionary it returns always
    holds the resolved path, the name and the size of the file; it holds
    [error] exactly when the reader failed, [num_pages] exactly when the
    pages were counted, and the title exactly when the document has a
    non-empty information, with the empty text when the information has no
    title. *)
Theorem extract_pdf_metadata_keys pdf_path :
  exists_ (resolve pdf_path) = true →
  ∃ metadata,
    extract_pdf_metadata pdf_path = Returned metadata
    ∧ metadata !! "file_path" = Some (MStr (resolve pdf_path))
    ∧ metadata !! "file_name" = Some (MStr (path_name (resolve pdf_path)))
    ∧ metadata !! "file_size_bytes" = Some (MInt (st_size (resolve pdf_path)))
    ∧ (is_Some (metadata !! "error")
         ↔ ∀ n info, PdfReader (resolve pdf_path) ≠ Read n info)
    ∧ (∀ n, metadata !! "num_pages" = Some (MInt n)
            ↔ (∃ msg, PdfReader (resolve pdf_path) = InfoFails n msg)
              ∨ (∃ info, PdfReader (resolve pdf_path) = Read n info))
    ∧ (∀ title, metadata !! "title" = Some (MStr title)
                ↔ ∃ n info, PdfReader (resolve pdf_path) = Read n (Some info)
                            ∧ info ≠ ∅
                            ∧ title = default EmptyString (info !! "/Title")).
Proof.
  intros Hex. unfold extract_pdf_metadata. cbv zeta. rewrite Hex. cbn [negb].
  eexists. split; [reflexivity|].
  destruct (PdfReader (resolve pdf_path)) as [msg|msg|n msg|n [info|]].
  - unfold with_error. do 3 (split; [by look|]). split; [|split].
    + look. split; [done|intros _; by eexists].
    + intros n'. look. split; [done|by intros [[? ?]|[? ?]]].
    + intros title. look. split; [done|by intros (? & ? & ? & _)].
  - unfold with_error. do 3 (split; [by look|]). split; [|split].
    + look. split; [done|intros _; by eexists].
    + intros n'. look. split; [done|by intros [[? ?]|[? ?]]].
    + intros title. look. split; [done|by intros (? & ? & ? & _)].
  - unfold with_error. do 3 (split; [by look|]). split; [|split].
    + look. split; [done|intros _; by eexists].
    + intros n'. look. split.
      * intros [= <-]. left. by eexists.
      * intros [[? [= -> _]]|[? [=]]]. done.
    + intros title. look. split; [done|by intros (? & ? & ? & _)].
  - destruct (decide (info = ∅)) as [Hi|Hi].
    + do 3 (split; [by look|]). split; [|split].
      * look. split; [by intros [? ?]|]. intros H. by destruct (H n (Some info)).
      * intros n'. look. split.
        -- intros [= <-]. right. by eexists.
        -- intros [[? [=]]|[? [= -> _]]]. done.
      * intros title. look. split; [done|].
        intros (n' & i' & [= -> ->] & Hne & _). done.
    + unfold with_info, info_keys. cbn [foldl fst snd].
      do 3 (split; [by look|]). split; [|split].
      * look. split; [by intros [? ?]|]. intros H. by destruct (H n (Some info)).
      * intros n'. look. split.
        -- intros [= <-]. right. by eexists.
        -- intros [[? [=]]|[? [= -> _]]]. done.
      * intros title. look. split.
        -- intros [= <-]. by exists n, info.
        -- intros (n' & i' & [= -> ->] & Hne & ->). done.
  - do 3 (split; [by look|]). split; [|split].
    + look. split; [by intros [? ?]|]. intros H. by destruct (H n None).
    + intros n'. look. split.
      * intros [= <-]. right. by eexists.
      * intros [[? [=]]|[? [= -> _]]]. done.
    + intros title. look. split; [done|by intros (? & ? & ? & _)].
Qed.

End Metadata.

End PdfUtils.

(** * A concrete runtime and the scenarios

    The parameters of section [Ledger] are instantiated with IEEE doubles
    and with small parsers that cover the inputs of the scenarios below:
    plain decimal numbers and ISO dates.  Texts of other shapes are taken
    as not convertible. *)

Module Scenario.
Import PrimFloat.

Definition fle (a b : float) : Prop := PrimFloat.leb a b = true.

#[global] Instance fle_dec : RelDecision fle.
Proof. intros a b. unfold fle. apply _. Defined.

Definition float_of_Z (n : Z) : float :=
  let x := PrimFloat.of_uint63 (Uint63.of_Z (Z.abs n)) in
  if (n <? 0)%Z then PrimFloat.opp x else x.

(** [float(n)] for the integers of 63 bits. *)
Definition float_of_int (n : Z) : option float :=
  if (Z.abs n <? 2 ^ 63)%Z then Some (float_of_Z n) else None.

Definition digit (c : ascii) : option Z :=
  let n := Z.of_N (N_of_ascii c) in
  if ((48 <=? n) && (n <=? 57))%Z then Some (n - 48)%Z else None.

Fixpoint number (s : string) (acc : Z) : option Z :=
  match s with
  | EmptyString => Some acc
  | String c s' =>
      match digit c with
      | Some d => number s' (10 * acc + d)%Z
      | None => None
      end
  end.

(** The value of a non-empty text of decimal digits. *)
Definition digits (s : string) : option Z :=
  match s with
  | EmptyString => None
  | _ => number s 0
  end.

Fixpoint split_dot (s : string) : string * option string :=
  match s with
  | EmptyString => (EmptyString, None)
  | String c s' =>
      if Ascii.eqb c "." then (EmptyString, Some s')
      else let '(a, b) := split_dot s' in (String c a, b)
  end.

(** [float(s)] for texts [ddd] and [ddd.ddd]. *)
Definition float_of_str (s : string) : option float :=
  let '(i, f) := split_dot s in
  match digits i, f with
  | Some n, None => Some (float_of_Z n)
  | Some n, Some fs =>
      match digits fs with
      | Some k =>
          let scale := (10 ^ Z.of_nat (String.length fs))%Z in
          Some (PrimFloat.div (float_of_Z (n * scale + k)) (float_of_Z scale))
      | None => None
      end
  | None, _ => None
  end.

Definition fsum' (xs : list float) : float := foldl PrimFloat.add 0%float xs.

Definition fmean (xs : list float) : float :=
  PrimFloat.div (fsum' xs) (float_of_Z (Z.of_nat (length xs))).

(** The nearest integer to [n / d], ties to even. *)
Definition round_div (n d : Z) : Z :=
  let q := (n / d)%Z in
  let r := (n mod d)%Z in
  match (2 * r ?= d)%Z with
  | Lt => q
  | Gt => (q + 1)%Z
  | Eq => if Z.even q then q else (q + 1)%Z
  end.

(** The format [:.2f]. *)
Definition format_2f (x : float) : string :=
  let show (neg : bool) (cents : Z) :=
    (if neg then "-" else EmptyString)
      +:+ str_int (cents / 100) +:+ "." +:+ Timestamp.pad 2 (str_int (cents mod 100)) in
  match FloatOps.Prim2SF x with
  | SpecFloat.S754_zero neg => show neg 0%Z
  | SpecFloat.S754_infinity neg => if neg then "-inf" else "inf"
  | SpecFloat.S754_nan => "nan"
  | SpecFloat.S754_finite neg m e =>
      let n := (100 * Z.pos m)%Z in
      show neg (if (0 <=? e)%Z then (n * 2 ^ e)%Z else round_div n (2 ^ (- e)))
  end.

Definition days_in_month (y mo : Z) : Z :=
  if (mo =? 2)%Z then
    if ((y mod 4 =? 0) && (negb (y mod 100 =? 0) || (y mod 400 =? 0)))%Z
    then 29 else 28
  else if ((mo =? 4) || (mo =? 6) || (mo =? 9) || (mo =? 11))%Z then 30
  else 31.

(** [pd.to_datetime] for texts [YYYY-MM-DD]. *)
Definition to_datetime (s : string) : option Timestamp.t :=
  if ((String.length s =? 10)%nat
      && String.eqb (String.substring 4 1 s) "-"
      && String.eqb (String.substring 7 1 s) "-")%bool
  then
    match digits (String.substring 0 4 s), digits (String.substring 5 2 s),
          digits (String.substring 8 2 s) with
    | Some y, Some mo, Some d =>
        if ((1 <=? mo) && (mo <=? 12) && (1 <=? d) && (d <=? days_in_month y mo))%Z
        then Some (Timestamp.mk y mo d 0 0 0 0)
        else None
    | _, _, _ => None
    end
  else None.

(** The clock: the readings are one second apart. *)
Definition clock (n : nat) : Timestamp.t :=
  Timestamp.mk 2025 6 1 12 0 (Z.of_nat n) 0.

(** Paths are resolved against the working directory [/work]. *)
Definition resolve (path : string) : string :=
  if String.prefix "/" path then path else "/work/" +:+ path.

Definition decode_row (cells : list (@Cell float)) : option (@BillRecord float) :=
  match cells with
  | [CTimestamp d; CStr p; CFloat a; CStr c; CStr de; CStr pp; CInt y; CInt mo;
     CTimestamp ad] =>
      Some {| date := d; provider := p; amount := a; category := c;
              description := de; pdf_path := pp; year := y; month := mo;
              added_on := ad |}
  | _ => None
  end.

(** [pd.read_excel]: a sheet is read back when its rows are bill rows. *)
Definition read_excel (data : @FileData float) (name : string)
  : result (@DataFrame float) :=
  match data with
  | Blob _ =>
      Raise (ValueError "Excel file format cannot be determined, you must specify an engine manually.")
  | Xlsx wb =>
      match sheet name wb with
      | None => Raise (ValueError ("Worksheet named '" +:+ name +:+ "' not found"))
      | Some t =>
          match mapM decode_row (trows t) with
          | Some rs => Ok {| columns := tcolumns t; rows := rs |}
          | None => Raise (ValueError "cannot read the rows")
          end
      end
  end.

Definition to_datetime_column (d : @DataFrame float) : result (@DataFrame float) :=
  Ok d.

(** The methods on this runtime. *)
Definition new (path : string) (files : gmap string FileData) : Manager :=
  init resolve read_excel to_datetime_column path files [] 0.
Definition add (record : RecordDict) : M unit :=
  add_record 0%float float_of_int float_of_str to_datetime clock record.
Definition summary (d : DataFrame) : Summary :=
  get_summary 0%float PrimFloat.add d.
Definition save_ : M unit := save 0%float PrimFloat.add fle.
Definition taxes (y : Z) (p : option string) : M string :=
  export_for_taxes 0%float PrimFloat.add fmean format_2f resolve y p.
Definition hsa (p : option string) : M string :=
  export_hsa_reconciliation 0%float PrimFloat.add resolve p.

(** The manager after a sequence of calls that all return. *)
Definition after {A} (c : M A) (m : @Manager float) : Manager := snd (c m).

Definition bill (d p : string) (a : float) (c : string) : RecordDict :=
  {| rd_date := Some d; rd_provider := Some p; rd_amount := Some (PyFloat a);
     rd_category := Some c; rd_description := None; rd_pdf_path := None |}.

(** The ledger of the scenario: three bills, added to an empty ledger. *)
Definition m0 : Manager := new "healthcare_bills.xlsx" ∅.
Definition m3 : Manager :=
  after (add (bill "2023-11-01" "Dr. Jones" 50%float "medical"))
    (after (add (bill "2024-03-02" "Vision Co" 80%float "vision"))
       (after (add (bill "2024-01-15" "Dr. Smith" 120%float "medical")) m0)).

(** The ledger with a bill outside the HSA categories. *)
Definition m4 : Manager :=
  after (add (bill "2024-05-20" "Fit Gym" 30%float "gym")) m3.

(** A bill whose date does not parse, with an amount that coerces. *)
Definition undated_bill : @RecordDict float :=
  bill "not a date" "Dr. Smith" 42.5%float "medical".

(** A bill whose date does not parse and whose amount does not coerce. *)
Definition bad_bill : @RecordDict float :=
  {| rd_date := Some "not a date"; rd_provider := Some "Dr. Smith";
     rd_amount := Some (PyStr "abc"); rd_category := Some "medical";
     rd_description := None; rd_pdf_path := None |}.

(** A session whose backing file exists and is not a workbook. *)
Definition corrupt_files : gmap string (@FileData float) :=
  {[ "/work/healthcare_bills.xlsx" := Blob "not a workbook" ]}.
Definition m_corrupt : Manager := new "healthcare_bills.xlsx" corrupt_files.

(** The scenario of the specification: the summary of the three bills. *)
Example summary_m3 :
  ∃ by_category by_year by_provider,
    summary (df m3)
    = Stats 3 250%float "2023-11-01 00:00:00" "2024-03-02 00:00:00"
        by_category by_year by_provider
    ∧ by_year !! 2024%Z = Some 200%float
    ∧ by_year !! 2023%Z = Some 50%float
    ∧ by_category !! "medical" = Some 170%float
    ∧ by_category !! "vision" = Some 80%float
    ∧ by_category !! "gym" = None
    ∧ by_provider !! "Vision Co" = Some 80%float.
Proof. eexists _, _, _. split; [reflexivity|]. by vm_compute. Qed.

(** A saved ledger is read back by a new session. *)
Example save_then_load :
  df (new "healthcare_bills.xlsx" (fs (after save_ m3))) = df (after save_ m3).
Proof. by vm_compute. Qed.

(** Witness of C1 as amended: the undated bill is appended with the first
    clock reading as its date. *)
Lemma add_record_unparseable_date_witness :
  to_datetime "not a date" = None
  ∧ py_float float_of_int float_of_str (PyFloat 42.5%float) = Ok 42.5%float
  ∧ ∃ r m',
      add undated_bill m3 = (Ok tt, m')
      ∧ rows (df m') = rows (df m3) ++ [r]
      ∧ date r = clock 3
      ∧ year r = 2025%Z
      ∧ month r = 6%Z
      ∧ r = row_of undated_bill (clock 3) 42.5%float (clock 4)
      ∧ fs m' = fs m3 ∧ stdout m' = stdout m3.
Proof.
  split; [reflexivity|]. split; [reflexivity|].
  apply (add_record_unparseable_date 0%float float_of_int float_of_str
           to_datetime clock undated_bill m3 42.5%float); reflexivity.
Defined.

(** Counterexample to C1 as stated: the date of [bad_bill] does not parse,
    and the bill is not appended, since its amount does not coerce: the call
    raises and the ledger keeps its three rows. *)
Lemma add_record_unparseable_date_rejected :
  to_datetime (default EmptyString (rd_date bad_bill)) = None
  ∧ fst (add bad_bill m3)
    = Raise (ValueError "could not convert string to float: 'abc'")
  ∧ rows (df (snd (add bad_bill m3))) = rows (df m3)
  ∧ ¬ ∃ r m', add bad_bill m3 = (Ok tt, m')
              ∧ rows (df m') = rows (df m3) ++ [r].
Proof.
  split; [reflexivity|]. split; [reflexivity|]. split; [reflexivity|].
  intros (r & m' & H & _). vm_compute in H. discriminate H.
Qed.


(** Witness of C10: the amount of [bad_bill] does not coerce. *)
Lemma add_record_bad_amount_witness :
  py_float float_of_int float_of_str (PyStr "abc")
  = Raise (ValueError "could not convert string to float: 'abc'")
  ∧ ∃ m', add bad_bill m3
          = (Raise (ValueError "could not convert string to float: 'abc'"), m')
          ∧ df m' = df m3 ∧ fs m' = fs m3 ∧ stdout m' = stdout m3.
Proof.
  split; [reflexivity|].
  apply (add_record_bad_amount 0%float float_of_int float_of_str to_datetime
           clock bad_bill m3); reflexivity.
Defined.

(** Witness of C7: the session on the corrupt backing file has an empty
    ledger, and [save] leaves the file as it is. *)
Lemma save_empty_noop_witness :
  df_empty (df m_corrupt) = true
  ∧ ∃ m', save_ m_corrupt = (Ok tt, m')
          ∧ fs m' = corrupt_files
          ∧ df m' = df m_corrupt
          ∧ stdout m' = stdout m_corrupt ++ ["Warning: No data to save"].
Proof.
  split; [reflexivity|].
  apply (save_empty_noop 0%float PrimFloat.add fle m_corrupt); reflexivity.
Defined.

(** Witness of C8: a session without a backing file, and a session on the
    corrupt one. *)
Lemma load_falls_back_to_empty_witness :
  _load_or_create_dataframe read_excel to_datetime_column
    "/work/healthcare_bills.xlsx" ∅ []
  = (_create_empty_dataframe, [])
  ∧ _load_or_create_dataframe read_excel to_datetime_column
      "/work/healthcare_bills.xlsx" corrupt_files []
    = (_create_empty_dataframe,
       ["Warning: Could not load existing file: Excel file format cannot be determined, you must specify an engine manually."]).
Proof.
  split.
  - apply (proj1 (load_falls_back_to_empty read_excel to_datetime_column
                    "/work/healthcare_bills.xlsx" ∅ [])).
    reflexivity.
  - apply (proj1 (proj2 (load_falls_back_to_empty read_excel to_datetime_column
                           "/work/healthcare_bills.xlsx" corrupt_files []))
             (Blob "not a workbook")
             (ValueError "Excel file format cannot be determined, you must specify an engine manually."));
      reflexivity.
Defined.

Lemma m3_has_2024 : ∃ r, r ∈ rows (df m3) ∧ year r = 2024%Z.
Proof. eexists. split; [vm_compute; left|reflexivity]. Defined.





(** The gym bill is in the ledger and not in the HSA export. *)
Example hsa_excludes_gym :
  length (rows (df m4)) = 4%nat
  ∧ ∃ wb t, fs (snd (hsa None m4)) !! "/work/hsa_reconciliation.xlsx" = Some (Xlsx wb)
            ∧ sheet "HSA Expenses" wb = Some t
            ∧ length (trows t) = 3%nat
            ∧ ∀ row, row ∈ trows t → CStr "gym" ∉ row.
Proof.
  split; [reflexivity|]. eexists _, _.
  split; [by vm_compute|]. split; [reflexivity|]. split; [reflexivity|].
  apply Forall_forall. vm_compute.
  repeat (apply List.Forall_cons;
          [intros Hin; repeat (inversion Hin as [|? ? ? Hin']; subst; clear Hin;
                               rename Hin' into Hin); inversion Hin|]).
  apply List.Forall_nil.
Qed.


(** Witness of C2 as amended: the tax export of 2024. *)
Lemma export_for_taxes_monthly_witness :
  (∃ r, r ∈ rows (df m3) ∧ year r = 2024%Z)
  ∧ ∃ wb ms,
      fs (snd (taxes 2024 None m3)) !! "/work/tax_export_2024.xlsx"
      = Some (Xlsx wb)
      ∧ sheet "Monthly Summary" wb
        = Some {| tcolumns := ["month_name"; "amount"];
                  trows := (λ g, [CStr (snd (fst g)); CFloat (snd g)]) <$> ms |}
      ∧ Sorted (λ a b, (fst (fst a) ≤ fst (fst b))%Z) ms.
Proof.
  split; [exact m3_has_2024|].
  destruct (export_for_taxes_monthly 0%float PrimFloat.add fmean format_2f
              resolve 2024 None m3 m3_has_2024)
    as (path & year_df & ms & wb & m' & Hexp & Hfs & _ & _ & Hsheet & Hsorted & _).
  exists wb, ms.
  assert (Hpath : path = "/work/tax_export_2024.xlsx").
  { apply (f_equal fst) in Hexp. vm_compute in Hexp. by inversion Hexp. }
  unfold taxes. rewrite Hexp. simpl. rewrite Hfs, Hpath.
  split; [apply lookup_insert_eq|]. by split.
Defined.

(** Counterexample to C2 as stated: in the tax export of 2024 the sheet
    [Monthly Summary] has a row for January and a row for March, and they
    hold the month name and the amount: there is no column for the month
    number and no row holds it. *)
Lemma monthly_summary_without_month_number :
  ∃ wb t,
    fs (snd (taxes 2024 None m3)) !! "/work/tax_export_2024.xlsx"
    = Some (Xlsx wb)
    ∧ sheet "Monthly Summary" wb = Some t
    ∧ t = {| tcolumns := ["month_name"; "amount"];
             trows := [[CStr "January"; CFloat 120%float];
                       [CStr "March"; CFloat 80%float]] |}
    ∧ ("month" ∉ tcolumns t)
    ∧ (∀ row n, row ∈ trows t → CInt n ∉ row).
Proof.
  eexists _, _. split; [by vm_compute|]. split; [reflexivity|].
  split; [reflexivity|]. simpl. split.
  - rewrite !not_elem_of_cons. repeat split; try discriminate.
    apply not_elem_of_nil.
  - intros row n Hrow.
    apply elem_of_cons in Hrow as [->|Hrow];
      [|apply elem_of_cons in Hrow as [->|Hrow];
        [|by apply elem_of_nil in Hrow]];
      rewrite !not_elem_of_cons; repeat split; try discriminate;
      apply not_elem_of_nil.
Qed.

(** ** Scenarios for the further properties *)

(** The text of a cell, floats with two decimals. *)
Definition cell_text (c : @Cell float) : string :=
  match c with
  | CTimestamp d => Timestamp.str d
  | CStr s => s
  | CFloat x => format_2f x
  | CInt n => str_int n
  | CEmpty => "None"
  end.

Definition quoted (s : string) : string :=
  let q := String (ascii_of_nat 34) EmptyString in q +:+ s +:+ q.

Definition json_value (v : @PyVal float) : string :=
  match v with
  | PyNone => "null"
  | PyBool b => if b then "true" else "false"
  | PyInt n => str_int n
  | PyFloat x => format_2f x
  | PyStr s => quoted s
  end.

(** A rendering of the record of the tool, one key per line. *)
Definition json_dumps (r : @RecordDict float) : string :=
  let nl := String (ascii_of_nat 10) EmptyString in
  let field k v := "  " +:+ quoted k +:+ ": " +:+ v in
  "{" +:+ nl
  +:+ field "provider" (quoted (default EmptyString (rd_provider r))) +:+ "," +:+ nl
  +:+ field "date" (quoted (default EmptyString (rd_date r))) +:+ "," +:+ nl
  +:+ field "amount" (json_value (default PyNone (rd_amount r))) +:+ "," +:+ nl
  +:+ field "pdf_path" (quoted (default EmptyString (rd_pdf_path r))) +:+ "," +:+ nl
  +:+ field "description" (quoted (default EmptyString (rd_description r))) +:+ "," +:+ nl
  +:+ field "category" (quoted (default EmptyString (rd_category r))) +:+ nl
  +:+ "}".

Definition tool (args : RecordDict) (w : World) : ToolResult * World :=
  add_bill_to_spreadsheet_tool 0%float PrimFloat.add fle float_of_int
    float_of_str to_datetime clock resolve read_excel to_datetime_column
    json_dumps args w.

Definition w0 : @World float :=
  {| w_files := ∅; w_stdout := []; w_ticks := 0 |}.


Definition dated_bill : @RecordDict float :=
  {| rd_date := Some "2024-07-04"; rd_provider := Some "Dr. Smith";
     rd_amount := Some (PyStr "42.50"); rd_category := None;
     rd_description := None; rd_pdf_path := None |}.

Lemma clock_monotone i j : (i ≤ j)%nat → Timestamp.le (clock i) (clock j).
Proof.
  intros Hij. apply Timestamp.le_iff. unfold Timestamp.compare, clock. simpl.
  destruct (Z.compare_spec (Z.of_nat i) (Z.of_nat j)); [done|done|lia].
Defined.

(** Witness of X1. *)
Lemma add_record_parsed_date_witness :
  to_datetime "2024-07-04" = Some (Timestamp.mk 2024 7 4 0 0 0 0)
  ∧ py_float float_of_int float_of_str (PyStr "42.50") = Ok 42.5%float
  ∧ ∃ r m',
      add dated_bill m3 = (Ok tt, m')
      ∧ rows (df m') = rows (df m3) ++ [r]
      ∧ ticks m' = 4%nat
      ∧ date r = Timestamp.mk 2024 7 4 0 0 0 0
      ∧ year r = 2024%Z ∧ month r = 7%Z
      ∧ amount r = 42.5%float
      ∧ added_on r = clock 3
      ∧ category r = "medical".
Proof.
  split; [reflexivity|]. split; [reflexivity|].
  destruct (add_record_parsed_date 0%float float_of_int float_of_str
              to_datetime clock dated_bill m3
              (Timestamp.mk 2024 7 4 0 0 0 0) 42.5%float eq_refl eq_refl)
    as (r & m' & H1 & H2 & H3 & H4 & H5 & H6 & H7 & H8 & _ & H10 & _).
  exists r, m'. repeat split; assumption.
Defined.

(** Witness of X3: the stamps of the ledger of the scenario are ordered. *)
Lemma add_record_added_on_monotone_witness :
  (∀ i j, (i ≤ j)%nat → Timestamp.le (clock i) (clock j))
  ∧ stamps_ordered clock m3.
Proof.
  split; [exact clock_monotone|]. unfold m3, after.
  apply (add_record_added_on_monotone 0%float float_of_int float_of_str
           to_datetime clock _ _ clock_monotone).
  apply (add_record_added_on_monotone 0%float float_of_int float_of_str
           to_datetime clock _ _ clock_monotone).
  apply (add_record_added_on_monotone 0%float float_of_int float_of_str
           to_datetime clock _ _ clock_monotone).
  apply (add_record_added_on_monotone 0%float float_of_int float_of_str
           to_datetime clock dated_bill m0 clock_monotone).
  reflexivity.
Defined.

(** Witness of X4: the ledger of the scenario has the canonical columns. *)
Lemma canonical_columns_kept_witness :
  columns (df m3) = canonical_columns
  ∧ df_empty (df m3) = false
  ∧ ∃ (wb : list (string * Table)) t,
      fs (snd (save_ m3)) !! workbook_path m3 = Some (Xlsx wb)
      ∧ sheet "Bills" wb = Some t
      ∧ tcolumns t = canonical_columns
      ∧ Forall (λ row, length row = 9%nat) (trows t).
Proof.
  split; [reflexivity|]. split; [reflexivity|].
  exact (proj2 (proj2 (proj2 (proj2 (canonical_columns_kept 0%float PrimFloat.add
           fle float_of_int float_of_str to_datetime clock dated_bill m3))
           eq_refl)) eq_refl).
Defined.

(** Witness of X5: saving the ledger leaves the tax export where it is. *)
Lemma writers_touch_one_file_witness :
  "/work/tax_export_2024.xlsx" ≠ workbook_path (after (taxes 2024 None) m3)
  ∧ fs (snd (save_ (after (taxes 2024 None) m3))) !! "/work/tax_export_2024.xlsx"
    = fs (after (taxes 2024 None) m3) !! "/work/tax_export_2024.xlsx".
Proof.
  assert (Hne : "/work/tax_export_2024.xlsx"
                ≠ workbook_path (after (taxes 2024 None) m3)) by discriminate.
  split; [exact Hne|].
  exact (proj1 (writers_touch_one_file 0%float PrimFloat.add fle fmean format_2f
                  resolve (after (taxes 2024 None) m3)) _ Hne).
Defined.




(** Witness of X9. *)
Lemma export_for_taxes_category_summary_witness :
  (∃ r, r ∈ rows (df m3) ∧ year r = 2024%Z)
  ∧ ∃ (wb : list (string * Table)) cs,
      fs (snd (taxes 2024 None m3)) !! "/work/tax_export_2024.xlsx"
      = Some (Xlsx wb)
      ∧ sheet "Category Summary" wb
        = Some {| tcolumns := ["Category"; "Total Amount"];
                  trows := (λ g, [CStr (fst g); CFloat (snd g)]) <$> cs |}
      ∧ StronglySorted (λ a b, String.compare a b = Lt) (fst <$> cs).
Proof.
  split; [exact m3_has_2024|].
  destruct (export_for_taxes_category_summary 0%float PrimFloat.add fmean
              format_2f resolve 2024 None m3 m3_has_2024)
    as (path & year_df & cs & total & mean & wb & m' & Hexp & Hfs & _ & _
        & Hsheet & Hsorted & _).
  exists wb, cs.
  assert (Hpath : path = "/work/tax_export_2024.xlsx").
  { apply (f_equal fst) in Hexp. vm_compute in Hexp. by inversion Hexp. }
  unfold taxes. rewrite Hexp. simpl. rewrite Hfs, Hpath.
  split; [apply lookup_insert_eq|]. by split.
Defined.

Lemma m4_has_hsa :
  ∃ r, r ∈ rows (df m4) ∧ category r ∈ hsa_eligible_categories.
Proof. eexists. split; [vm_compute; left|left]. Defined.

(** Witness of X10. *)
Lemma export_hsa_reconciliation_yearly_totals_witness :
  (∃ r, r ∈ rows (df m4) ∧ category r ∈ hsa_eligible_categories)
  ∧ ∃ (wb : list (string * Table)) ys,
      fs (snd (hsa None m4)) !! "/work/hsa_reconciliation.xlsx" = Some (Xlsx wb)
      ∧ sheet "Yearly Totals" wb
        = Some {| tcolumns := ["Year"; "Total HSA-Eligible Amount"];
                  trows := (λ g, [CInt (fst g); CFloat (snd g)]) <$> ys |}
      ∧ StronglySorted Z.lt (fst <$> ys).
Proof.
  split; [exact m4_has_hsa|].
  destruct (export_hsa_reconciliation_yearly_totals 0%float PrimFloat.add
              resolve None m4 m4_has_hsa)
    as (path & hsa_df & ys & wb & m' & Hexp & Hfs & _ & Hsheet & Hsorted & _).
  exists wb, ys.
  assert (Hpath : path = "/work/hsa_reconciliation.xlsx").
  { apply (f_equal fst) in Hexp. vm_compute in Hexp. by inversion Hexp. }
  unfold hsa. rewrite Hexp. simpl. rewrite Hfs, Hpath.
  split; [apply lookup_insert_eq|]. by split.
Defined.



(** The sheet [Bills] of the saved ledger of the scenario. *)
Definition bills_m3 : @Table float :=
  to_table canonical_columns (sort_by_date_desc (rows (df m3))).

(** Witness of X13: the column of the providers, whose texts have nine
    characters, gets the width 11. *)
Lemma format_bills_sheet_widths_witness :
  _format_bills_sheet cell_text bills_m3 !! 1%nat = Some 11%nat
  ∧ (2 ≤ 11 ≤ 50)%nat
  ∧ (∀ s, s ∈ column_texts cell_text bills_m3 1 →
          (String.length s + 2) `min` 50 ≤ 11)%nat.
Proof.
  assert (Hw : _format_bills_sheet cell_text bills_m3 !! 1%nat = Some 11%nat)
    by (by vm_compute).
  split; [exact Hw|].
  destruct (proj2 (format_bills_sheet_widths cell_text bills_m3) 1%nat 11%nat Hw)
    as (H1 & H2 & _).
  by split.
Defined.

(** Witness of X14. *)
Lemma add_bill_tool_bad_amount_witness :
  py_float float_of_int float_of_str (PyStr "abc")
  = Raise (ValueError "could not convert string to float: 'abc'")
  ∧ ∃ w',
      tool bad_bill w0
      = ({| text := "Error adding record to spreadsheet: could not convert string to float: 'abc'";
            isError := true |}, w')
      ∧ w_files w' = ∅.
Proof.
  split; [reflexivity|].
  exact (add_bill_tool_bad_amount 0%float PrimFloat.add fle float_of_int
           float_of_str to_datetime clock resolve read_excel to_datetime_column
           json_dumps bad_bill w0 _ eq_refl).
Defined.


End Scenario.

(** * Scenarios for the PDF utilities *)

Module PdfScenario.
Import PdfUtils.

(** The directory [/work/bills]: two bills, a note, a directory for 2024
    with a bill and a scan whose suffix is in upper case, and a directory
    whose name ends with [.pdf]. *)
Definition bills : Node :=
  Dir [("smith.pdf", File); ("notes.txt", File);
       ("2024", Dir [("vision.pdf", File); ("SCAN.PDF", File)]);
       ("old.pdf", Dir []);
       ("blank.pdf", File)].

Fixpoint lookup_path (names : list string) (n : Node) : option Node :=
  match names with
  | [] => Some n
  | name :: names' =>
      match n with
      | File => None
      | Dir entries =>
          match List.find (λ e, String.eqb (fst e) name) entries with
          | Some e => lookup_path names' (snd e)
          | None => None
          end
      end
  end.

(** What is at a path: the paths of the scenario, one by one. *)
Definition stat (path : string) : option Node :=
  if String.eqb path "/work/bills" then Some bills
  else if String.eqb path "/work/bills/smith.pdf" then lookup_path ["smith.pdf"] bills
  else if String.eqb path "/work/bills/notes.txt" then lookup_path ["notes.txt"] bills
  else if String.eqb path "/work/bills/blank.pdf" then lookup_path ["blank.pdf"] bills
  else if String.eqb path "/work/bills/old.pdf" then lookup_path ["old.pdf"] bills
  else if String.eqb path "/work/bills/2024" then lookup_path ["2024"] bills
  else if String.eqb path "/work/bills/2024/vision.pdf"
       then lookup_path ["2024"; "vision.pdf"] bills
  else if String.eqb path "/work/bills/2024/SCAN.PDF"
       then lookup_path ["2024"; "SCAN.PDF"] bills
  else None.

Definition exists_ (path : string) : bool :=
  match stat path with Some _ => true | None => false end.

(** The text from the last dot of a name on, when the dot is neither its
    first nor its last character. *)
Fixpoint after_last_dot (s : string) : option string :=
  match s with
  | EmptyString => None
  | String c s' =>
      match after_last_dot s' with
      | Some t => Some t
      | None => if Ascii.eqb c "." then Some s else None
      end
  end.

Fixpoint has_slash (s : string) : bool :=
  match s with
  | EmptyString => false
  | String c s' => Ascii.eqb c "/" || has_slash s'
  end.

(** The last component of a path. *)
Fixpoint name_of (s : string) : string :=
  match s with
  | EmptyString => EmptyString
  | String _ s' => if has_slash s then name_of s' else s
  end.

(** The suffix of a path. *)
Definition path_suffix (path : string) : string :=
  match name_of path with
  | EmptyString => EmptyString
  | String _ rest =>
      match after_last_dot rest with
      | Some t => if (1 <? String.length t)%nat then t else EmptyString
      | None => EmptyString
      end
  end.

Definition isspace (c : ascii) : bool :=
  let n := nat_of_ascii c in
  ((9 <=? n) && (n <=? 13) || (28 <=? n) && (n <=? 32))%nat.

(** The readers: the bill of Dr. Smith has three pages, the second without
    text; the first reader fails at the second page of the bill of Vision
    Co and cannot open the upper-case scan; the blank file has no text. *)
Definition pdfplumber_open (path : string) : document :=
  if String.eqb path "/work/bills/smith.pdf"
  then Pages [Text (Some "Dr. Smith"); Text None; Text (Some " Total: 120.00 ")]
  else if String.eqb path "/work/bills/2024/vision.pdf"
  then Pages [Text (Some "Vision Co"); Fails "bad page"]
  else if String.eqb path "/work/bills/blank.pdf"
  then Pages [Text None; Text (Some EmptyString)]
  else CannotOpen "not a PDF".

Definition PyPDF2_open (path : string) : document :=
  if String.eqb path "/work/bills/2024/vision.pdf"
  then Pages [Text (Some "Vision Co"); Text (Some "Amount 80.00")]
  else CannotOpen "EOF marker not found".

Definition scan (directory : string) (recursive : bool) : outcome (list string) :=
  scan_for_pdfs Scenario.resolve stat directory recursive.

Definition extract (pdf_path : string) : outcome string :=
  extract_pdf_text Scenario.resolve exists_ path_suffix isspace pdfplumber_open
    PyPDF2_open pdf_path.

Definition nl : string := newline.

Example scan_bills :
  scan "bills" true
  = Returned ["/work/bills/2024/vision.pdf"; "/work/bills/blank.pdf";
              "/work/bills/old.pdf"; "/work/bills/smith.pdf"]
  ∧ scan "bills" false
    = Returned ["/work/bills/blank.pdf"; "/work/bills/old.pdf";
                "/work/bills/smith.pdf"].
Proof. split; by vm_compute. Qed.

Example extract_smith :
  extract "bills/smith.pdf"
  = Returned ("--- Page 1 ---" +:+ nl +:+ "Dr. Smith" +:+ nl +:+ nl
              +:+ "--- Page 3 ---" +:+ nl +:+ " Total: 120.00").
Proof. by vm_compute. Qed.

(** The first reader fails at the second page: its first page is kept and
    the pages of the second reader follow, so that the first page is there
    twice. *)
Example extract_vision :
  extract "bills/2024/vision.pdf"
  = Returned ("--- Page 1 ---" +:+ nl +:+ "Vision Co" +:+ nl +:+ nl
              +:+ "--- Page 1 ---" +:+ nl +:+ "Vision Co" +:+ nl +:+ nl
              +:+ "--- Page 2 ---" +:+ nl +:+ "Amount 80.00").
Proof. by vm_compute. Qed.

Example suffixes :
  path_suffix "/work/bills/2024/SCAN.PDF" = ".PDF"
  ∧ path_suffix "/work/a.b/notes" = EmptyString
  ∧ path_suffix "/work/.pdf" = EmptyString
  ∧ path_suffix "/work/x.tar.gz" = ".gz".
Proof. by vm_compute. Qed.

(** Witness of X16. *)
Lemma scan_for_pdfs_errors_witness :
  (stat (Scenario.resolve "invoices") = None
   ∧ scan "invoices" true
     = Raised (ValueError "Directory does not exist: invoices"))
  ∧ (stat (Scenario.resolve "bills/notes.txt") = Some File
     ∧ scan "bills/notes.txt" true
       = Raised (ValueError "Path is not a directory: bills/notes.txt"))
  ∧ (stat (Scenario.resolve "bills/old.pdf") = Some (Dir [])
     ∧ scan "bills/old.pdf" true = Returned []).
Proof.
  split; [|split]; (split; [reflexivity|]).
  - exact (proj1 (scan_for_pdfs_errors Scenario.resolve stat "invoices" true)
             eq_refl).
  - exact (proj1 (proj2 (scan_for_pdfs_errors Scenario.resolve stat
                           "bills/notes.txt" true)) eq_refl).
  - exact (proj2 (proj2 (proj2 (scan_for_pdfs_errors Scenario.resolve stat
                                  "bills/old.pdf" true))) eq_refl).
Defined.

(** Witness of X17. *)
Lemma scan_for_pdfs_sorted_witness :
  scan "bills" true
  = Returned ["/work/bills/2024/vision.pdf"; "/work/bills/blank.pdf";
              "/work/bills/old.pdf"; "/work/bills/smith.pdf"]
  ∧ StronglySorted String.le
      ["/work/bills/2024/vision.pdf"; "/work/bills/blank.pdf";
       "/work/bills/old.pdf"; "/work/bills/smith.pdf"]
  ∧ ends_with ".pdf" "/work/bills/2024/vision.pdf" = true
  ∧ String.prefix "/work/bills" "/work/bills/2024/vision.pdf" = true.
Proof.
  assert (Hscan : scan "bills" true
            = Returned ["/work/bills/2024/vision.pdf"; "/work/bills/blank.pdf";
                        "/work/bills/old.pdf"; "/work/bills/smith.pdf"])
    by (by vm_compute).
  split; [exact Hscan|].
  destruct (scan_for_pdfs_sorted Scenario.resolve stat "bills" true _ Hscan)
    as [Hsorted Hall].
  split; [exact Hsorted|].
  destruct (Hall "/work/bills/2024/vision.pdf") as (H1 & H2 & _); [by left|].
  by split.
Defined.

(** Witness of X18. *)
Lemma scan_for_pdfs_finds_witness :
  (∃ entries, stat (Scenario.resolve "bills") = Some (Dir entries))
  ∧ ∃ flat deep,
      scan "bills" false = Returned flat
      ∧ scan "bills" true = Returned deep
      ∧ (∀ p, p ∈ flat → p ∈ deep)
      ∧ "/work/bills/2024/vision.pdf" ∈ deep.
Proof.
  split; [by eexists|].
  destruct (scan_for_pdfs_finds Scenario.resolve stat "bills" _ eq_refl)
    as (flat & deep & Hflat & Hdeep & _ & Hfound & Hincl).
  exists flat, deep. split; [exact Hflat|]. split; [exact Hdeep|].
  split; [exact Hincl|].
  apply Hfound.
  change "/work/bills/2024/vision.pdf"
    with (child (child (Scenario.resolve "bills") "2024") "vision.pdf").
  apply (found_below _ _ "2024" (Dir [("vision.pdf", File); ("SCAN.PDF", File)]));
    [by right; right; left|].
  by apply (found_here _ _ "vision.pdf" File); [left|].
Defined.

(** Witness of X19: a path with nothing at it, and a note. *)
Lemma extract_pdf_text_checks_witness :
  (exists_ (Scenario.resolve "bills/missing.txt") = false
   ∧ extract "bills/missing.txt"
     = Raised (ValueError "File does not exist: /work/bills/missing.txt"))
  ∧ (exists_ (Scenario.resolve "bills/notes.txt") = true
     ∧ lower (path_suffix (Scenario.resolve "bills/notes.txt")) ≠ ".pdf"
     ∧ extract "bills/notes.txt"
       = Raised (ValueError "File is not a PDF: /work/bills/notes.txt")).
Proof.
  split.
  - split; [reflexivity|].
    exact (proj1 (extract_pdf_text_checks Scenario.resolve exists_ path_suffix
                    isspace pdfplumber_open PyPDF2_open "bills/missing.txt")
             eq_refl).
  - split; [reflexivity|].
    assert (Hne : lower (path_suffix (Scenario.resolve "bills/notes.txt")) ≠ ".pdf")
      by discriminate.
    split; [exact Hne|].
    exact (proj1 (proj2 (extract_pdf_text_checks Scenario.resolve exists_
                           path_suffix isspace pdfplumber_open PyPDF2_open
                           "bills/notes.txt")) eq_refl Hne).
Defined.

(** Witness of X20. *)
Lemma extract_pdf_text_stripped_witness :
  extract "bills/smith.pdf"
  = Returned ("--- Page 1 ---" +:+ nl +:+ "Dr. Smith" +:+ nl +:+ nl
              +:+ "--- Page 3 ---" +:+ nl +:+ " Total: 120.00")
  ∧ lstrip isspace
      ("--- Page 1 ---" +:+ nl +:+ "Dr. Smith" +:+ nl +:+ nl
       +:+ "--- Page 3 ---" +:+ nl +:+ " Total: 120.00")
    = "--- Page 1 ---" +:+ nl +:+ "Dr. Smith" +:+ nl +:+ nl
      +:+ "--- Page 3 ---" +:+ nl +:+ " Total: 120.00".
Proof.
  assert (H : extract "bills/smith.pdf"
              = Returned ("--- Page 1 ---" +:+ nl +:+ "Dr. Smith" +:+ nl +:+ nl
                          +:+ "--- Page 3 ---" +:+ nl +:+ " Total: 120.00"))
    by (by vm_compute).
  split; [exact H|].
  exact (proj1 (proj2 (extract_pdf_text_stripped Scenario.resolve exists_
                         path_suffix isspace pdfplumber_open PyPDF2_open
                         "bills/smith.pdf" _ H))).
Defined.

(** Witness of X21: the upper-case scan passes the check of the suffix, and
    both readers fail on it. *)
Lemma extract_pdf_text_readers_witness :
  exists_ (Scenario.resolve "bills/2024/SCAN.PDF") = true
  ∧ lower (path_suffix (Scenario.resolve "bills/2024/SCAN.PDF")) = ".pdf"
  ∧ extract "bills/2024/SCAN.PDF"
    = Raised (Exception "Failed to extract text using both methods. pdfplumber error: not a PDF, PyPDF2 error: EOF marker not found").
Proof.
  split; [reflexivity|]. split; [reflexivity|].
  exact (extract_pdf_text_readers Scenario.resolve exists_ path_suffix isspace
           pdfplumber_open PyPDF2_open "bills/2024/SCAN.PDF" eq_refl eq_refl).
Defined.

(** Witness of X22: the blank file. *)
Lemma extract_pdf_text_no_text_witness :
  isspace "-" = false
  ∧ pdfplumber_open (Scenario.resolve "bills/blank.pdf")
    = Pages [Text None; Text (Some EmptyString)]
  ∧ Forall no_text [Text None; Text (Some EmptyString)]
  ∧ extract "bills/blank.pdf"
    = Raised (Exception "No text could be extracted from the PDF. The PDF might be image-based or encrypted.").
Proof.
  split; [reflexivity|]. split; [reflexivity|].
  assert (Hall : Forall no_text [Text None; Text (Some EmptyString)]).
  { constructor; [by left|]. constructor; [by right|constructor]. }
  split; [exact Hall|].
  exact (proj2 (extract_pdf_text_no_text Scenario.resolve exists_ path_suffix
                  isspace pdfplumber_open PyPDF2_open "bills/blank.pdf"
                  [Text None; Text (Some EmptyString)]
                  eq_refl eq_refl eq_refl eq_refl eq_refl) Hall).
Defined.

(** Witness of X23: the third page of the bill of Dr. Smith. *)
Lemma extract_pdf_text_page_numbers_witness :
  pdfplumber_open (Scenario.resolve "bills/smith.pdf")
  = Pages ([Text (Some "Dr. Smith"); Text None]
           ++ Text (Some " Total: 120.00 ") :: [])
  ∧ extract "bills/smith.pdf"
    = finish isspace
        (blocks 1 [Text (Some "Dr. Smith"); Text None]
         +:+ (newline +:+ "--- Page " +:+ str_int 3 +:+ " ---" +:+ newline
              +:+ " Total: 120.00 " +:+ newline)
         +:+ blocks 4 []).
Proof.
  split; [reflexivity|].
  assert (Ht : " Total: 120.00 " ≠ EmptyString) by discriminate.
  exact (extract_pdf_text_page_numbers Scenario.resolve exists_ path_suffix
           isspace pdfplumber_open PyPDF2_open "bills/smith.pdf"
           [Text (Some "Dr. Smith"); Text None] " Total: 120.00 " []
           eq_refl eq_refl eq_refl eq_refl Ht).
Defined.

Definition path_name (path : string) : string := name_of path.
Definition st_size (path : string) : Z := 2048.

Definition PdfReader (path : string) : meta_reader :=
  if String.eqb path "/work/bills/smith.pdf"
  then Read 3 (Some {[ "/Title" := "Invoice"; "/Producer" := "Scanner" ]})
  else OpenFails "EOF marker not found".

(** Witness of X24. *)
Lemma extract_pdf_metadata_keys_witness :
  exists_ (Scenario.resolve "bills/smith.pdf") = true
  ∧ ∃ metadata,
      extract_pdf_metadata Scenario.resolve exists_ path_name st_size PdfReader
        "bills/smith.pdf" = Returned metadata
      ∧ metadata !! "file_name" = Some (MStr "smith.pdf")
      ∧ metadata !! "file_size_bytes" = Some (MInt 2048)
      ∧ metadata !! "num_pages" = Some (MInt 3)
      ∧ metadata !! "title" = Some (MStr "Invoice").
Proof.
  split; [reflexivity|].
  destruct (extract_pdf_metadata_keys Scenario.resolve exists_ path_name st_size
              PdfReader "bills/smith.pdf" eq_refl)
    as (md & Hmd & _ & Hname & Hsize & _ & Hpages & Htitle).
  exists md. split; [exact Hmd|]. split; [exact Hname|]. split; [exact Hsize|].
  split.
  - apply Hpages. right. by eexists.
  - apply Htitle. eexists 3%Z, _. split; [reflexivity|]. split; [|by vm_compute].
    intros E. apply (f_equal (λ m : gmap string string, m !! "/Title")) in E.
    vm_compute in E. discriminate E.
Defined.

End PdfScenario.
